(** * cologauge: quality control and fusion of three co-located rain gauges

    A shallow embedding of [gauge_proc_tools.py] and the properties its
    specification states about it.

    Numbers are IEEE 754 binary64 values, as Python's [float] and numpy's
    [float64] are: the Standard Library's [spec_float] at precision 53 and
    maximal exponent 1024, with a single NaN.  A [pandas.DataFrame] with the
    three gauge columns is a list of rows (one row per timestamp, in index
    order), so that the three columns share their index by construction. *)

From Stdlib Require Import String Ascii.
From Stdlib Require Import ZArith List Bool Lia PeanoNat.
From Stdlib Require Import SpecFloat.
Import ListNotations.

Set Implicit Arguments.

(** ** Binary64 arithmetic *)

Module IEEE.

Definition float := spec_float.

Definition prec : Z := 53.
Definition emax : Z := 1024.

Definition nan : float := S754_nan.
Definition zero : float := S754_zero false.

Definition fadd : float -> float -> float := SFadd prec emax.
Definition fsub : float -> float -> float := SFsub prec emax.
Definition fmul : float -> float -> float := SFmul prec emax.
Definition fdiv : float -> float -> float := SFdiv prec emax.

(** Comparisons are IEEE comparisons: each is [false] as soon as one
    operand is NaN. *)
Definition feqb : float -> float -> bool := SFeqb.
Definition fltb : float -> float -> bool := SFltb.
Definition fleb : float -> float -> bool := SFleb.
Definition fgtb (x y : float) : bool := SFltb y x.
Definition fgeb (x y : float) : bool := SFleb y x.

Definition is_nan (x : float) : bool :=
  match x with S754_nan => true | _ => false end.

(** Conversion of an integer, rounding to nearest even. *)
Definition of_Z (z : Z) : float := binary_normalize prec emax z 0 false.
Definition of_nat (n : nat) : float := of_Z (Z.of_nat n).

(** A decimal literal [n / d] of the source text: for integers below
    [2^53] the correctly rounded quotient is the binary64 value nearest
    to the decimal. *)
Definition lit (n d : Z) : float := fdiv (of_Z n) (of_Z d).

(** C's [rint] in the default rounding mode: the nearest integer, ties to
    even, keeping the sign of a zero result. *)
Definition rint (x : float) : float :=
  match x with
  | S754_finite s m (Zneg d) =>
      let p := Z.pow 2 (Zpos d) in
      let q := Z.div (Zpos m) p in
      let r := Z.modulo (Zpos m) p in
      let n :=
        match Z.compare (2 * r) p with
        | Lt => q
        | Gt => (q + 1)%Z
        | Eq => if Z.even q then q else (q + 1)%Z
        end in
      match n with
      | Zpos k => binary_round prec emax s k 0
      | _ => S754_zero s
      end
  | _ => x
  end.

(** [numpy.round(x, 10)] on a float64 array, which is what
    [DataFrame.round(10)] runs: scale by [10^10], [rint], scale back. *)
Definition ten_pow_10 : float := of_Z 10000000000.
Definition round10 (x : float) : float :=
  fdiv (rint (fmul x ten_pow_10)) ten_pow_10.

(** Equality up to the sign of a zero (and of NaN with itself). *)
Definition is_zero (x : float) : bool :=
  match x with S754_zero _ => true | _ => false end.
Definition same_value (x y : float) : Prop :=
  x = y \/ (is_zero x = true /\ is_zero y = true).

End IEEE.
Import IEEE.

(** ** Column labels *)

(** [gauge_ids = ["1", "2", "3"]] *)
Inductive GaugeId := G1 | G2 | G3.

Definition gauge_name (g : GaugeId) : string :=
  match g with G1 => "1" | G2 => "2" | G3 => "3" end.

Definition gauge_ids : list GaugeId := [G1; G2; G3].

Definition gauge_eqb (a b : GaugeId) : bool :=
  String.eqb (gauge_name a) (gauge_name b).

(** The three pair columns ["1-2"], ["1-3"], ["2-3"]. *)
Inductive PairKey := P12 | P13 | P23.

Definition pair_str (p : PairKey) : string :=
  match p with P12 => "1-2" | P13 => "1-3" | P23 => "2-3" end.

(** The module-level table [pairs]. *)
Definition pairs (g : GaugeId) : PairKey * PairKey :=
  match g with
  | G1 => (P12, P13)
  | G2 => (P12, P23)
  | G3 => (P13, P23)
  end.

Definition pairs_all : list PairKey := [P12; P13; P23].

(** [pair_str.split("-")] *)
Fixpoint split_on (sep : ascii) (acc s : string) : list string :=
  match s with
  | EmptyString => [acc]
  | String c rest =>
      if Ascii.eqb c sep then acc :: split_on sep EmptyString rest
      else split_on sep (acc ++ String c EmptyString)%string rest
  end.

Definition gauge_of_name (s : string) : option GaugeId :=
  find (fun g => String.eqb (gauge_name g) s) gauge_ids.

(** [id_1, id_2 = pair_str.split("-")], as column labels of the gauge
    frame.  The fallback is never reached for the three pair strings. *)
Definition split_pair (p : PairKey) : GaugeId * GaugeId :=
  match map gauge_of_name (split_on "-"%char EmptyString (pair_str p)) with
  | [Some a; Some b] => (a, b)
  | _ => (G1, G1)
  end.

(** [pair[0]], the first character of a pair string, as a string. *)
Definition first_char (s : string) : string :=
  match s with
  | EmptyString => EmptyString
  | String c _ => String c EmptyString
  end.

(** ** Frames *)

(** One row of a frame with the columns ["1"], ["2"], ["3"]. *)
Record Row (A : Type) : Type := mkRow { at1 : A; at2 : A; at3 : A }.

(** One row of a frame with the columns ["1-2"], ["1-3"], ["2-3"]. *)
Record PRow (A : Type) : Type := mkPRow { at12 : A; at13 : A; at23 : A }.

Definition Frame (A : Type) : Type := list (Row A).
Definition PFrame (A : Type) : Type := list (PRow A).

Definition col {A} (g : GaugeId) (r : Row A) : A :=
  match g with G1 => at1 r | G2 => at2 r | G3 => at3 r end.

Definition pcol {A} (p : PairKey) (r : PRow A) : A :=
  match p with P12 => at12 r | P13 => at13 r | P23 => at23 r end.

(** A row filled column by column, as the loops over [gauge_ids] and
    [pairs["all"]] fill their result frames. *)
Definition build_row {A} (f : GaugeId -> A) : Row A :=
  mkRow (f G1) (f G2) (f G3).

Definition build_prow {A} (f : PairKey -> A) : PRow A :=
  mkPRow (f P12) (f P13) (f P23).

Definition map_row {A B} (f : A -> B) (r : Row A) : Row B :=
  build_row (fun g => f (col g r)).

Definition column {A} (g : GaugeId) (df : Frame A) : list A :=
  map (col g) df.

(** [df.round(10)] *)
Definition round_frame (df : Frame float) : Frame float :=
  map (map_row round10) df.

(** ** validity_from_zeros *)

(** [list(set(gauge_ids) - set(gauge_id))] *)
Definition other_gauge_ids (g : GaugeId) : list GaugeId :=
  filter (fun h => negb (gauge_eqb h g)) gauge_ids.

Definition zeros_not_valid (min_R : float) (r : Row float) (g : GaugeId)
  : bool :=
  let o1 := nth 0 (other_gauge_ids g) g in
  let o2 := nth 1 (other_gauge_ids g) g in
  feqb (col g r) zero && (fgtb (col o1 r) min_R || fgtb (col o2 r) min_R).

Definition validity_from_zeros (df_three_gauges : Frame float)
  (min_R : float) : Frame bool :=
  let df_rounded := round_frame df_three_gauges in
  map (fun r => build_row (fun g => negb (zeros_not_valid min_R r g)))
      df_rounded.

(** ** get_gauge_diff, get_gauge_relative_diff *)

Definition get_gauge_diff (df_three_gauges : Frame float) : PFrame float :=
  let df_rounded := round_frame df_three_gauges in
  map (fun r =>
         build_prow (fun p =>
           let '(id_1, id_2) := split_pair p in
           fsub (col id_1 r) (col id_2 r)))
      df_rounded.

(** The quotient is taken with the frame as it was passed (the rounded copy
    is local to [get_gauge_diff]).  The two masked assignments
    [df_relative_diff[pair_str][mask] = np.nan] then write NaN into the
    column just stored (pandas without copy-on-write, where the column
    taken out of the frame is the one held by the frame). *)
Definition relative_diff_entry (min_R : float) (r : Row float)
  (d : PRow float) (p : PairKey) : float :=
  let '(id_1, id_2) := split_pair p in
  let q := fdiv (pcol p d)
                (fdiv (fadd (col id_1 r) (col id_2 r)) (of_Z 2)) in
  let q := if fltb (col id_1 r) min_R then nan else q in
  if fltb (col id_2 r) min_R then nan else q.

Definition get_gauge_relative_diff (df_three_gauges : Frame float)
  (min_R : float) : PFrame float :=
  let df_diff := get_gauge_diff df_three_gauges in
  map (fun rd => build_prow (relative_diff_entry min_R (fst rd) (snd rd)))
      (combine df_three_gauges df_diff).

(** ** validity_from_relative_diff *)

(** [sign = -1 if pair[0] == gauge_id else 1] *)
Definition pair_sign (g : GaugeId) (p : PairKey) : Z :=
  if String.eqb (first_char (pair_str p)) (gauge_name g) then (-1)%Z
  else 1%Z.

(** [(df_three_gauges > min_R).any(axis=1)] *)
Definition any_greater (min_R : float) (r : Row float) : bool :=
  fgtb (at1 r) min_R || fgtb (at2 r) min_R || fgtb (at3 r) min_R.

Definition diff_not_valid (max_allowed_relative_diff min_R : float)
  (r : Row float) (rel : PRow float) (g : GaugeId) : bool :=
  let '(pair_1, pair_2) := pairs g in
  let sign_1 := pair_sign g pair_1 in
  let sign_2 := pair_sign g pair_2 in
  any_greater min_R r
  && (fgtb (fmul (pcol pair_1 rel) (of_Z sign_1)) max_allowed_relative_diff
      || fgtb (fmul (pcol pair_2 rel) (of_Z sign_2))
              max_allowed_relative_diff).

Definition validity_from_relative_diff (df_three_gauges : Frame float)
  (max_allowed_relative_diff min_R : float) : Frame bool :=
  let df_relative_diff := get_gauge_relative_diff df_three_gauges min_R in
  map (fun rr =>
         build_row (fun g =>
           negb (diff_not_valid max_allowed_relative_diff min_R
                                (fst rr) (snd rr) g)))
      (combine df_three_gauges df_relative_diff).


(** ** Rolling windows and row means (pandas) *)

Section Pandas.

(** The number pandas' rolling-mean kernel produces at position [i] of a
    column for a window that has all its observations.  The kernel keeps
    compensated running sums along the column, so the value depends on
    the column up to the window and not on the window alone; it is a
    parameter here, and no property below depends on it. *)
Variable window_mean : nat -> list float -> nat -> float.

(** The value of [df.rolling(window, center=True).corr()] for two columns
    at position [i]; a parameter as well. *)
Variable rolling_corr : nat -> list float -> list float -> nat -> float.

(** The observations of the centered window at position [i]: pandas ends
    the window after position [i + (window - 1) // 2] and clips it to the
    column. *)
Definition window_values (window i : nat) (xs : list float) : list float :=
  let offset := (window - 1) / 2 in
  let start := i + 1 + offset - window in
  let stop := Nat.min (i + 1 + offset) (length xs) in
  firstn (stop - start) (skipn start xs).

Definition count_obs (ws : list float) : nat :=
  length (filter (fun v => negb (is_nan v)) ws).

(** [min_periods] defaults to the window length: fewer observations that
    are not NaN give NaN. *)
Definition rolling_mean_at (window : nat) (xs : list float) (i : nat)
  : float :=
  let nobs := count_obs (window_values window i xs) in
  if (nobs <? window) || (nobs =? 0) then nan
  else window_mean window xs i.

(** [df.rolling(window=window, center=True).mean()] *)
Definition rolling_mean (window : nat) (df : Frame float) : Frame float :=
  map (fun i => build_row (fun g => rolling_mean_at window (column g df) i))
      (seq 0 (length df)).

(** [a & b] on two boolean frames with the same index. *)
Definition frame_and (a b : Frame bool) : Frame bool :=
  map (fun ab => build_row (fun g => col g (fst ab) && col g (snd ab)))
      (combine a b).

(** [df[mask]]: entries whose mask is [False] become NaN. *)
Definition frame_where (df : Frame float) (mask : Frame bool)
  : Frame float :=
  map (fun rm : Row float * Row bool =>
         build_row (fun g =>
           if col g (snd rm) then col g (fst rm) else nan))
      (combine df mask).

(** [.mean(axis=1)] with the default [skipna=True]: NaN entries are
    replaced by zero and left out of the count; no entry left gives
    NaN. *)
Definition fill0 (v : float) : float := if is_nan v then zero else v.

Definition row_mean (r : Row float) : float :=
  let the_sum := fadd (fadd (fill0 (at1 r)) (fill0 (at2 r)))
                      (fill0 (at3 r)) in
  let count := count_obs [at1 r; at2 r; at3 r] in
  if count =? 0 then nan else fdiv the_sum (of_nat count).

Definition mean_axis1 (df : Frame float) : list float := map row_mean df.

(** ** combine_gauges *)

Definition valid_from_diff (df : Frame float) (hours_to_average_for_diff
  : positive) (max_allowed_relative_diff min_R : float) : Frame bool :=
  let df_temp :=
    rolling_mean (60 * Pos.to_nat hours_to_average_for_diff) df in
  validity_from_relative_diff df_temp max_allowed_relative_diff
    (fdiv min_R (of_Z (Zpos hours_to_average_for_diff))).

Definition valid_from_zeros (df : Frame float) (min_R : float)
  (hours_to_average_for_zeros : positive) : Frame bool :=
  let df_temp :=
    rolling_mean (60 * Pos.to_nat hours_to_average_for_zeros) df in
  validity_from_zeros df_temp
    (fdiv min_R (of_Z (Zpos hours_to_average_for_zeros))).

(** [df_valid_combo] *)
Definition valid_combo (df : Frame float)
  (hours_to_average_for_diff : positive)
  (max_allowed_relative_diff min_R : float)
  (hours_to_average_for_zeros : positive) : Frame bool :=
  frame_and (valid_from_zeros df min_R hours_to_average_for_zeros)
            (valid_from_diff df hours_to_average_for_diff
                             max_allowed_relative_diff min_R).

(** The window arguments are whole, positive hour counts: pandas rejects
    a window that is not a non-negative integer, and the division of
    [min_R] by zero hours raises. *)
Definition combine_gauges (df_three_gauges_R_1_min : Frame float)
  (hours_to_average_for_diff : positive)
  (max_allowed_relative_diff min_R : float)
  (hours_to_average_for_zeros : positive) : list float :=
  let df_valid_combo :=
    valid_combo df_three_gauges_R_1_min hours_to_average_for_diff
                max_allowed_relative_diff min_R
                hours_to_average_for_zeros in
  mean_axis1 (frame_where df_three_gauges_R_1_min df_valid_combo).

(** ** gauge_corr, validity_from_corr *)

(** [df_corr_three_pairs[pair_str][df_corr_three_pairs[pair_str] > 1] = 0],
    written into the column as above. *)
Definition clamp_corr (c : float) : float :=
  if fgtb c (of_Z 1) then of_Z 0 else c.

(** [correls.xs(key=id_1, axis=0, level=1)] selects on the second level of
    the index of the rolling correlations.  For a frame without rows the
    correlations are an empty frame whose index has no second level, and
    the selection raises a [KeyError]: the result is [None] then. *)
Definition gauge_corr (df_three_gauges : Frame float)
  (corr_window_length : nat) : option (PFrame float) :=
  match df_three_gauges with
  | [] => None
  | _ :: _ =>
      Some
        (map (fun i =>
                build_prow (fun p =>
                  let '(id_1, id_2) := split_pair p in
                  clamp_corr (rolling_corr corr_window_length
                                (column id_1 df_three_gauges)
                                (column id_2 df_three_gauges) i)))
             (seq 0 (length df_three_gauges)))
  end.

Definition validity_from_corr (df_corr_three_pairs : PFrame float)
  (min_corr : float) : Frame bool :=
  map (fun r =>
         build_row (fun g =>
           let df_corr_1 := pcol (fst (pairs g)) r in
           let df_corr_2 := pcol (snd (pairs g)) r in
           fgeb df_corr_1 min_corr || fgeb df_corr_2 min_corr))
      df_corr_three_pairs.

End Pandas.

(** A plain instance of the rolling-mean kernel, for running the model:
    the sum of the window from left to right, over the window length. *)
Definition naive_window_mean (window : nat) (xs : list float) (i : nat)
  : float :=
  match window_values window i xs with
  | [] => nan
  | x :: tl => fdiv (fold_left fadd tl x) (of_nat window)
  end.

(** ** wmo_correction *)

Section Calibration.

(** [**] on binary64 values is numpy's [power], the [pow] of the platform:
    IEEE 754 does not fix its result to the bit, and it is a parameter
    here. *)
Variable pow : float -> float -> float.



End Calibration.


(** ** Statements of the specification, in its own words *)

(** The arithmetic mean of a list of values: their sum, from left to
    right, over their number; undefined (NaN) for no value. *)
Definition mean_list (xs : list float) : float :=
  match xs with
  | [] => nan
  | x :: tl => fdiv (fold_left fadd tl x) (of_nat (List.length xs))
  end.

(** The mean, over the gauges a mask row marks valid, of the values of a
    row. *)
Definition mean_over_valid (valid : Row bool) (r : Row float) : float :=
  mean_list (map (fun g => col g r) (filter (fun g => col g valid) gauge_ids)).

(** The same, leaving out the gauges whose value is NaN. *)
Definition mean_over_usable (valid : Row bool) (r : Row float) : float :=
  mean_list
    (map (fun g => col g r)
         (filter (fun g => col g valid && negb (is_nan (col g r)))
                 gauge_ids)).

(** The values of a row that are not NaN, in column order. *)
Definition observed (r : Row float) : list float :=
  filter (fun v => negb (is_nan v)) [at1 r; at2 r; at3 r].

(** The relative difference of a pair with every input value rounded to
    10 decimals first: in the difference, in the mean and in the test
    against the floor. *)
Definition relative_diff_all_rounded (min_R : float) (r : Row float)
  (p : PairKey) : float :=
  let '(a, b) := split_pair p in
  let va := round10 (col a r) in
  let vb := round10 (col b r) in
  if fltb va min_R || fltb vb min_R then nan
  else fdiv (fsub va vb) (fdiv (fadd va vb) (of_Z 2)).

(** A gauge is listed first in a pair when it is the pair's first id. *)
Definition listed_first (g : GaugeId) (p : PairKey) : bool :=
  gauge_eqb (fst (split_pair p)) g.

Definition spec_sign (g : GaugeId) (p : PairKey) : float :=
  if listed_first g p then of_Z (-1) else of_Z 1.

(** Position [t] lies too close to an end of a column of [n] entries for
    the centered window of [60 * hours] entries to be complete. *)
Definition at_edge (hours : positive) (n t : nat) : Prop :=
  t < 30 * Pos.to_nat hours \/ n < t + 30 * Pos.to_nat hours.

(** ** plot_gauge_validity (gauge_vis_tools.py) *)

(** A validity frame with its index: one entry per timestamp, the
    timestamp as matplotlib's date number
    ([dates.date2num(index.to_pydatetime())]) with the row of the three
    gauges. *)
Definition IndexedFrame : Type := list (float * Row bool).

(** A validity frame as [plot_gauge_validity] receives it: the rows, and
    the labels of its columns in the order the frame holds them
    ([df_gauges_valid.columns]), which are distinct gauge ids. *)
Record ValidityFrame : Type := mkValidityFrame {
  vf_rows : IndexedFrame;
  vf_columns : list GaugeId;
  vf_columns_distinct : NoDup vf_columns
}.

Arguments mkValidityFrame : clear implicits.

(** The table [color_dict], each colour by the text of its literal. *)
Definition color_dict (gauge_id : GaugeId) : string :=
  match gauge_id with
  | G1 => "(0.22335772267769388, 0.6565792317435265, 0.8171355503265633)"
  | G2 => "(0.6423044349219739, 0.5497680051256467, 0.9582651433656727)"
  | G3 => "(0.9603888539940703, 0.3814317878772117, 0.8683117650835491)"
  end.

(** [offset_dict = {"1": 2, "2": 1, "3": 0}] *)
Definition offset_dict (gauge_id : GaugeId) : Z :=
  match gauge_id with G1 => 2 | G2 => 1 | G3 => 0 end%Z.

(** [Rectangle(xy=(x, offset), width=width, height=1, facecolor=color,
    edgecolor="none")] *)
Record Rectangle : Type := mkRectangle {
  rect_x : float;
  rect_y : Z;
  rect_width : float;
  rect_height : Z;
  rect_facecolor : string;
  rect_edgecolor : string
}.

(** What the function touches of a matplotlib axes object: its patches, in
    the order they were added, and the settings of its y axis ([None]
    where nothing was set). *)
Record Axes : Type := mkAxes {
  patches : list Rectangle;
  yticks : option (list float);
  ylim : option (float * float);
  yticklabels : option (list string)
}.

(** [plt.subplots(figsize=(12, 3))] *)
Definition new_axes : Axes := mkAxes [] None None None.

Definition add_patch (ax : Axes) (p : Rectangle) : Axes :=
  mkAxes (patches ax ++ [p]) (yticks ax) (ylim ax) (yticklabels ax).

Definition _add_patch_for_gauge (ax : Axes) (x width : float)
  (gauge_id : GaugeId) : Axes :=
  let color := color_dict gauge_id in
  let offset := offset_dict gauge_id in
  add_patch ax (mkRectangle x offset width 1 color "none").

(** The three variables of the loop along one column. *)
Record LoopState : Type := mkLoop {
  last_i_valid : bool;
  current_patch_width : float;
  t_i_start : option float
}.

(** One turn of [for t_i, valid in df_gauges_valid[gauge_id].iteritems()].
    [t_i_start.to_pydatetime()] raises on [None]: the result is [None]
    then. *)
Definition validity_loop_body (patch_width_increment : float)
  (gauge_id : GaugeId) (st : Axes * LoopState) (t_i : float) (valid : bool)
  : option (Axes * LoopState) :=
  let '(ax, l) := st in
  if valid then
    if negb (last_i_valid l) then
      Some (ax, mkLoop true patch_width_increment (Some t_i))
    else
      Some (ax, mkLoop true
                  (fadd (current_patch_width l) patch_width_increment)
                  (t_i_start l))
  else
    if last_i_valid l then
      match t_i_start l with
      | None => None
      | Some i_num =>
          Some (_add_patch_for_gauge ax i_num (current_patch_width l)
                                     gauge_id,
                mkLoop false zero (t_i_start l))
      end
    else Some (ax, mkLoop false (current_patch_width l) (t_i_start l)).

Fixpoint validity_loop (patch_width_increment : float) (gauge_id : GaugeId)
  (items : list (float * bool)) (st : Axes * LoopState)
  : option (Axes * LoopState) :=
  match items with
  | [] => Some st
  | (t_i, valid) :: rest =>
      match validity_loop_body patch_width_increment gauge_id st t_i valid
      with
      | None => None
      | Some st' => validity_loop patch_width_increment gauge_id rest st'
      end
  end.

(** The patch drawn after the loop when the column ends valid. *)
Definition validity_loop_end (gauge_id : GaugeId) (st : Axes * LoopState)
  : option Axes :=
  let '(ax, l) := st in
  if last_i_valid l then
    match t_i_start l with
    | None => None
    | Some i_num =>
        Some (_add_patch_for_gauge ax i_num (current_patch_width l) gauge_id)
    end
  else Some ax.

(** [df_gauges_valid[gauge_id].iteritems()] *)
Definition column_items (gauge_id : GaugeId) (df : IndexedFrame)
  : list (float * bool) :=
  map (fun tr => (fst tr, col gauge_id (snd tr))) df.

(** The body of [for gauge_id in df_gauges_valid.columns]. *)
Definition plot_column (patch_width_increment : float) (df : IndexedFrame)
  (ax : Axes) (gauge_id : GaugeId) : option Axes :=
  match validity_loop patch_width_increment gauge_id
          (column_items gauge_id df) (ax, mkLoop false zero None) with
  | None => None
  | Some st => validity_loop_end gauge_id st
  end.

Fixpoint plot_columns (patch_width_increment : float) (df : IndexedFrame)
  (columns : list GaugeId) (ax : Axes) : option Axes :=
  match columns with
  | [] => Some ax
  | gauge_id :: rest =>
      match plot_column patch_width_increment df ax gauge_id with
      | None => None
      | Some ax' => plot_columns patch_width_increment df rest ax'
      end
  end.

(** [ix_datenum[1] - ix_datenum[0]] raises an [IndexError] for an index of
    fewer than two entries: the result is [None] then. *)
Definition plot_gauge_validity (df_gauges_valid : ValidityFrame)
  (ax : option Axes) : option Axes :=
  let ax := match ax with None => new_axes | Some a => a end in
  match map fst (vf_rows df_gauges_valid) with
  | ix_0 :: ix_1 :: _ =>
      let patch_width_increment := fsub ix_1 ix_0 in
      match plot_columns patch_width_increment (vf_rows df_gauges_valid)
              (vf_columns df_gauges_valid) ax
      with
      | None => None
      | Some ax =>
          Some (mkAxes (patches ax)
                  (Some [lit 5 10; lit 15 10; lit 25 10])
                  (Some (lit (-1) 10, lit 31 10))
                  (Some ["Gauge #3"; "Gauge #2"; "Gauge #1"]%string))
      end
  | _ => None
  end.

(** *** Valid periods *)

(** The maximal runs of [true] along a labelled column: the label of the
    first entry of each run with the number of its entries. *)
Fixpoint runs (A : Type) (l : list (A * bool)) : list (A * nat) :=
  match l with
  | [] => []
  | (a, false) :: tl => runs tl
  | (a, true) :: tl =>
      match tl with
      | (_, true) :: _ =>
          match runs tl with
          | (_, n) :: rs => (a, S n) :: rs
          | [] => [(a, 1)]
          end
      | _ => (a, 1) :: runs tl
      end
  end.

(** The number of entries before the first [false]. *)
Fixpoint lead (A : Type) (l : list (A * bool)) : nat :=
  match l with
  | (_, true) :: tl => S (lead tl)
  | _ => 0
  end.

(** A width grown by [k] further increments. *)
Fixpoint grow (inc w : float) (k : nat) : float :=
  match k with
  | 0 => w
  | S k' => grow inc (fadd w inc) k'
  end.

(** The rectangle of a run of [n] entries that starts at date [t]. *)
Definition run_patch (inc : float) (gauge_id : GaugeId) (run : float * nat)
  : Rectangle :=
  mkRectangle (fst run) (offset_dict gauge_id)
              (grow inc inc (Nat.pred (snd run))) 1
              (color_dict gauge_id) "none".

(** The positions of a column, as labels. *)
Definition positions (column : list bool) : list (nat * bool) :=
  combine (seq 0 (List.length column)) column.

(** The number of gauges a mask row marks valid. *)
Definition count_valid (v : Row bool) : nat :=
  List.length (filter (fun g => col g v) gauge_ids).

(** A floor or threshold that is zero or above, or not a number. *)
Definition nonneg_or_nan (m : float) : Prop :=
  fleb zero m = true \/ is_nan m = true.

(** An axes object with further patches added. *)
Definition extend_patches (ax : Axes) (ps : list Rectangle) : Axes :=
  mkAxes (patches ax ++ ps) (yticks ax) (ylim ax) (yticklabels ax).

(** Runs of positions, each of at least one entry, that start at [k] or
    later, in increasing order and with at least one position between
    two of them. *)
Fixpoint gapped (k : nat) (rs : list (nat * nat)) : Prop :=
  match rs with
  | [] => True
  | (s, n) :: tl => k <= s /\ 1 <= n /\ gapped (s + n + 1) tl
  end.

(** * Properties *)

(** ** Lists and rows *)

Lemma nth_error_combine (A B : Type) (l : list A) (l' : list B) (n : nat) :
  nth_error (combine l l') n =
  match nth_error l n, nth_error l' n with
  | Some a, Some b => Some (a, b)
  | _, _ => None
  end.
Proof.
  revert l' n; induction l as [|a l IH]; intros [|b l'] [|n]; simpl; auto.
  destruct (nth_error l n); reflexivity.
Qed.

Lemma nth_error_seq0 (n t : nat) :
  t < n -> nth_error (seq 0 n) t = Some t.
Proof.
  intros H. rewrite nth_error_seq.
  destruct (Nat.ltb_spec t n); [reflexivity | lia].
Qed.

Lemma nth_error_in_range (A : Type) (l : list A) (t : nat) (x : A) :
  nth_error l t = Some x -> t < List.length l.
Proof.
  intros H. apply nth_error_Some. congruence.
Qed.

Lemma col_build_row (A : Type) (f : GaugeId -> A) (g : GaugeId) :
  col g (build_row f) = f g.
Proof. destruct g; reflexivity. Qed.

Lemma pcol_build_prow (A : Type) (f : PairKey -> A) (p : PairKey) :
  pcol p (build_prow f) = f p.
Proof. destruct p; reflexivity. Qed.

Lemma row_eta (A : Type) (r : Row A) : mkRow (at1 r) (at2 r) (at3 r) = r.
Proof. destruct r; reflexivity. Qed.

(** ** Frames, one timestamp at a time *)

Lemma round_frame_nth (df : Frame float) (t : nat) :
  nth_error (round_frame df) t =
  option_map (map_row round10) (nth_error df t).
Proof. unfold round_frame. apply nth_error_map. Qed.

Lemma validity_from_zeros_nth (df : Frame float) (min_R : float) (t : nat) :
  nth_error (validity_from_zeros df min_R) t =
  option_map
    (fun r => build_row (fun g =>
       negb (zeros_not_valid min_R (map_row round10 r) g)))
    (nth_error df t).
Proof.
  unfold validity_from_zeros.
  rewrite nth_error_map, round_frame_nth.
  destruct (nth_error df t); reflexivity.
Qed.

Lemma get_gauge_diff_nth (df : Frame float) (t : nat) :
  nth_error (get_gauge_diff df) t =
  option_map
    (fun r => build_prow (fun p =>
       fsub (round10 (col (fst (split_pair p)) r))
            (round10 (col (snd (split_pair p)) r))))
    (nth_error df t).
Proof.
  unfold get_gauge_diff.
  rewrite nth_error_map, round_frame_nth.
  destruct (nth_error df t) as [r|]; [|reflexivity].
  simpl. f_equal.
Qed.

Lemma get_gauge_relative_diff_nth (df : Frame float) (min_R : float)
  (t : nat) :
  nth_error (get_gauge_relative_diff df min_R) t =
  match nth_error df t, nth_error (get_gauge_diff df) t with
  | Some r, Some d => Some (build_prow (relative_diff_entry min_R r d))
  | _, _ => None
  end.
Proof.
  unfold get_gauge_relative_diff.
  rewrite nth_error_map, nth_error_combine.
  destruct (nth_error df t), (nth_error (get_gauge_diff df) t); reflexivity.
Qed.

Lemma validity_from_relative_diff_nth (df : Frame float)
  (max_allowed_relative_diff min_R : float) (t : nat) :
  nth_error (validity_from_relative_diff df max_allowed_relative_diff min_R)
            t =
  match nth_error df t, nth_error (get_gauge_relative_diff df min_R) t with
  | Some r, Some rel =>
      Some (build_row (fun g =>
              negb (diff_not_valid max_allowed_relative_diff min_R r rel g)))
  | _, _ => None
  end.
Proof.
  unfold validity_from_relative_diff.
  rewrite nth_error_map, nth_error_combine.
  destruct (nth_error df t),
           (nth_error (get_gauge_relative_diff df min_R) t); reflexivity.
Qed.

(** ** Binary64 facts *)

#[local] Arguments fadd : simpl never.
#[local] Arguments fsub : simpl never.
#[local] Arguments fmul : simpl never.
#[local] Arguments fdiv : simpl never.
#[local] Arguments feqb : simpl never.
#[local] Arguments fltb : simpl never.
#[local] Arguments fleb : simpl never.
#[local] Arguments fgtb : simpl never.
#[local] Arguments fgeb : simpl never.
#[local] Arguments round10 : simpl never.
#[local] Arguments of_Z : simpl never.
#[local] Arguments of_nat : simpl never.

Lemma is_nan_eq (x : float) : is_nan x = true -> x = nan.
Proof. destruct x; simpl; intros H; try discriminate; reflexivity. Qed.

Lemma feqb_nan_l (y : float) : feqb nan y = false.
Proof. reflexivity. Qed.

Lemma fgtb_nan_l (y : float) : fgtb nan y = false.
Proof. destruct y as [[]|[]| |[] m e]; reflexivity. Qed.

Lemma fgeb_nan_l (y : float) : fgeb nan y = false.
Proof. destruct y as [[]|[]| |[] m e]; reflexivity. Qed.

Lemma fltb_nan_l (y : float) : fltb nan y = false.
Proof. reflexivity. Qed.

Lemma fmul_nan_l (y : float) : fmul nan y = nan.
Proof. reflexivity. Qed.

Lemma round10_nan : round10 nan = nan.
Proof. reflexivity. Qed.

Lemma feqb_zero_inv (x : float) : feqb x zero = true -> is_zero x = true.
Proof. destruct x as [[]|[]| |[] m e]; simpl; intros H; auto; discriminate. Qed.

Lemma round10_zero (x : float) : is_zero x = true -> round10 x = x.
Proof. destruct x as [[]|[]| |[] m e]; simpl; intros H; try discriminate; reflexivity. Qed.

Lemma zero_not_above (x min_R : float) :
  is_zero x = true -> fleb zero min_R = true -> fgtb x min_R = false.
Proof.
  destruct x as [[]|[]| |[] m e]; simpl; intros H; try discriminate;
    destruct min_R as [[]|[]| |[] m' e']; intros H'; try discriminate;
    reflexivity.
Qed.

(** ** Column labels *)

Lemma other_gauge_ids_table :
  other_gauge_ids G1 = [G2; G3] /\ other_gauge_ids G2 = [G1; G3]
  /\ other_gauge_ids G3 = [G1; G2].
Proof. repeat split. Qed.

Lemma split_pair_table :
  split_pair P12 = (G1, G2) /\ split_pair P13 = (G1, G3)
  /\ split_pair P23 = (G2, G3).
Proof. repeat split. Qed.

Lemma pair_sign_spec (g : GaugeId) (p : PairKey) :
  of_Z (pair_sign g p) = spec_sign g p.
Proof. destruct g, p; reflexivity. Qed.

(** The order in which the set difference lists the two other gauges does
    not matter to the zero detector. *)
Remark zeros_not_valid_order (min_R : float) (r : Row float) (g o1 o2 : GaugeId) :
  other_gauge_ids g = [o1; o2] ->
  zeros_not_valid min_R r g =
  feqb (col g r) zero && (fgtb (col o2 r) min_R || fgtb (col o1 r) min_R).
Proof.
  intros H. unfold zeros_not_valid. rewrite H. simpl.
  f_equal. apply orb_comm.
Qed.

(** ** The detectors *)

(** C4: [validity_from_zeros] marks gauge [g] invalid at timestamp [t]
    exactly when the value of [g], rounded to 10 decimals, equals zero and
    the rounded value of one of the two other gauges is strictly above
    [min_R]; when all three gauges read zero and [min_R] is not negative,
    all three are marked valid. *)
Theorem zeros_detector_rule (df : Frame float) (min_R : float) (t : nat)
  (r : Row float) :
  nth_error df t = Some r ->
  exists v,
    nth_error (validity_from_zeros df min_R) t = Some v
    /\ (forall g,
          col g v = false <->
          feqb (round10 (col g r)) zero = true
          /\ exists o, o <> g /\ fgtb (round10 (col o r)) min_R = true)
    /\ (feqb (at1 r) zero = true -> feqb (at2 r) zero = true ->
        feqb (at3 r) zero = true -> fleb zero min_R = true ->
        v = mkRow true true true).
Proof.
  intros Hr. rewrite validity_from_zeros_nth, Hr. simpl.
  eexists; split; [reflexivity|]. split.
  - intros g. rewrite col_build_row, negb_false_iff.
    unfold zeros_not_valid. rewrite andb_true_iff, orb_true_iff.
    destruct g; simpl; (split; intros [H0 H1]; split; try exact H0).
    all: try (destruct H1 as [H1|H1];
              first [ exists G1; split; [discriminate | exact H1]
                    | exists G2; split; [discriminate | exact H1]
                    | exists G3; split; [discriminate | exact H1] ]).
    all: destruct H1 as [o [Ho H1]];
      destruct o; try (exfalso; apply Ho; reflexivity); auto.
  - intros H1 H2 H3 Hm.
    apply feqb_zero_inv in H1, H2, H3.
    unfold build_row, zeros_not_valid; simpl.
    rewrite !round10_zero by assumption.
    rewrite !(zero_not_above _ _ H1 Hm), !(zero_not_above _ _ H2 Hm),
      !(zero_not_above _ _ H3 Hm).
    rewrite !andb_false_r. reflexivity.
Qed.

Lemma zeros_detector_rule_witness :
  nth_error [mkRow zero (of_Z 3) zero; mkRow zero zero zero] 1
  = Some (mkRow zero zero zero)
  /\ exists v,
    nth_error (validity_from_zeros
                 [mkRow zero (of_Z 3) zero; mkRow zero zero zero]
                 (lit 5 10)) 1 = Some v
    /\ (forall g,
          col g v = false <->
          feqb (round10 (col g (mkRow zero zero zero))) zero = true
          /\ exists o, o <> g
               /\ fgtb (round10 (col o (mkRow zero zero zero))) (lit 5 10)
                  = true)
    /\ (feqb zero zero = true -> feqb zero zero = true ->
        feqb zero zero = true -> fleb zero (lit 5 10) = true ->
        v = mkRow true true true).
Proof.
  split; [reflexivity|].
  apply (@zeros_detector_rule
           [mkRow zero (of_Z 3) zero; mkRow zero zero zero] (lit 5 10) 1
           (mkRow zero zero zero)).
  reflexivity.
Defined.

(** C5, as amended: the relative difference of the pair [(a, b)] at
    timestamp [t] is the difference of the two values rounded to 10
    decimals (the entry of [get_gauge_diff]) over the mean of the two
    values of the frame as they were passed, and it is NaN wherever one of
    the two values, as passed, is below [min_R]. *)
Theorem relative_difference_rule (df : Frame float) (min_R : float)
  (t : nat) (r : Row float) (p : PairKey) (a b : GaugeId) :
  nth_error df t = Some r ->
  split_pair p = (a, b) ->
  exists d rel,
    nth_error (get_gauge_diff df) t = Some d
    /\ nth_error (get_gauge_relative_diff df min_R) t = Some rel
    /\ pcol p d = fsub (round10 (col a r)) (round10 (col b r))
    /\ (fltb (col a r) min_R = true \/ fltb (col b r) min_R = true ->
        pcol p rel = nan)
    /\ (fltb (col a r) min_R = false -> fltb (col b r) min_R = false ->
        pcol p rel
        = fdiv (fsub (round10 (col a r)) (round10 (col b r)))
               (fdiv (fadd (col a r) (col b r)) (of_Z 2))).
Proof.
  intros Hr Hp.
  rewrite get_gauge_relative_diff_nth, get_gauge_diff_nth, Hr. simpl.
  do 2 eexists. split; [reflexivity|]. split; [reflexivity|].
  rewrite !pcol_build_prow. unfold relative_diff_entry.
  rewrite pcol_build_prow, Hp. simpl.
  split; [reflexivity|]. split.
  - intros [H|H]; rewrite H; [destruct (fltb (col b r) min_R)|]; reflexivity.
  - intros Ha Hb. rewrite Ha, Hb. reflexivity.
Qed.

Lemma relative_difference_rule_witness :
  let df := [mkRow (of_Z 10) (of_Z 10) (of_Z 1)] in
  let r := mkRow (of_Z 10) (of_Z 10) (of_Z 1) in
  let min_R := lit 5 10 in
  nth_error df 0 = Some r
  /\ split_pair P13 = (G1, G3)
  /\ exists d rel,
    nth_error (get_gauge_diff df) 0 = Some d
    /\ nth_error (get_gauge_relative_diff df min_R) 0 = Some rel
    /\ pcol P13 d = fsub (round10 (col G1 r)) (round10 (col G3 r))
    /\ (fltb (col G1 r) min_R = true \/ fltb (col G3 r) min_R = true ->
        pcol P13 rel = nan)
    /\ (fltb (col G1 r) min_R = false -> fltb (col G3 r) min_R = false ->
        pcol P13 rel
        = fdiv (fsub (round10 (col G1 r)) (round10 (col G3 r)))
               (fdiv (fadd (col G1 r) (col G3 r)) (of_Z 2))).
Proof.
  intros df r min_R.
  split; [reflexivity|]. split; [reflexivity|].
  apply (@relative_difference_rule df min_R 0 r P13 G1 G3); reflexivity.
Defined.

(** C5, as stated, rounds every input value of the formula; the code
    rounds the two values of the difference only.  With the floor 0.5 a
    gauge at 0.49999999999 is below the floor, so its pair entry is NaN,
    while its rounded value 0.5 is not below the floor and the formula on
    rounded values gives -2/3.  With the floor 0, three gauges at 4e-11
    give the entry [0 / 4e-11 = 0], while the formula on rounded values
    gives [0 / 0]. *)
Lemma all_rounded_formula_counterexample :
  let r := mkRow (lit 49999999999 100000000000) (of_Z 1) (of_Z 1) in
  let x := lit 4 100000000000 in
  round10 (lit 49999999999 100000000000) = lit 5 10
  /\ option_map (pcol P12)
       (nth_error (get_gauge_relative_diff [r] (lit 5 10)) 0) = Some nan
  /\ relative_diff_all_rounded (lit 5 10) r P12
     = fdiv (of_Z (-5)) (fdiv (of_Z 15) (of_Z 2))
  /\ option_map (pcol P12)
       (nth_error (get_gauge_relative_diff [mkRow x x x] zero) 0) = Some zero
  /\ relative_diff_all_rounded zero (mkRow x x x) P12 = nan
  /\ option_map (pcol P12)
       (nth_error (get_gauge_relative_diff [r] (lit 5 10)) 0)
     <> Some (relative_diff_all_rounded (lit 5 10) r P12)
  /\ option_map (pcol P12)
       (nth_error (get_gauge_relative_diff [mkRow x x x] zero) 0)
     <> Some (relative_diff_all_rounded zero (mkRow x x x) P12).
Proof.
  intros r x. repeat split; vm_compute; try reflexivity; discriminate.
Qed.

(** The rounding of [get_gauge_diff] reaches the numerator only: the
    quotient and the floor test read the frame as it was passed.  Two
    gauges at [4e-11] round to zero, yet their relative difference is
    [0 / 4e-11 = 0] and not [0 / 0]. *)
Remark relative_difference_denominator_unrounded :
  let x := lit 4 100000000000 in
  round10 x = zero
  /\ get_gauge_relative_diff [mkRow x x x] zero = [mkPRow zero zero zero].
Proof. split; vm_compute; reflexivity. Qed.

(** C3: [validity_from_relative_diff] marks gauge [g] invalid at timestamp
    [t] exactly when one of the three gauges is above [min_R] and, for one
    of the two pairs of [g], the relative difference times the sign of [g]
    in that pair is above [max_allowed_relative_diff]; the sign is [-1]
    when [g] is listed first in the pair and [+1] otherwise. *)
Theorem relative_diff_detector_rule (df : Frame float)
  (max_allowed_relative_diff min_R : float) (t : nat) (r : Row float)
  (g : GaugeId) (p1 p2 : PairKey) :
  nth_error df t = Some r ->
  pairs g = (p1, p2) ->
  exists rel v,
    nth_error (get_gauge_relative_diff df min_R) t = Some rel
    /\ nth_error
         (validity_from_relative_diff df max_allowed_relative_diff min_R) t
       = Some v
    /\ (col g v = false <->
        (exists h, fgtb (col h r) min_R = true)
        /\ (fgtb (fmul (pcol p1 rel) (spec_sign g p1))
                 max_allowed_relative_diff = true
            \/ fgtb (fmul (pcol p2 rel) (spec_sign g p2))
                    max_allowed_relative_diff = true)).
Proof.
  intros Hr Hp.
  rewrite validity_from_relative_diff_nth, get_gauge_relative_diff_nth,
    get_gauge_diff_nth, Hr. simpl.
  do 2 eexists. split; [reflexivity|]. split; [reflexivity|].
  rewrite col_build_row, negb_false_iff. unfold diff_not_valid.
  rewrite Hp, !pair_sign_spec.
  rewrite andb_true_iff, orb_true_iff. unfold any_greater.
  rewrite !orb_true_iff.
  split; intros [Hany Hrel]; (split; [|exact Hrel]).
  - destruct Hany as [[H|H]|H];
      [exists G1 | exists G2 | exists G3]; exact H.
  - destruct Hany as [[ | | ] H]; auto.
Qed.

Lemma relative_diff_detector_rule_witness :
  let df := [mkRow (of_Z 10) (of_Z 10) (of_Z 1)] in
  let r := mkRow (of_Z 10) (of_Z 10) (of_Z 1) in
  let min_R := lit 5 10 in
  let max_d := lit 3 10 in
  nth_error df 0 = Some r
  /\ pairs G3 = (P13, P23)
  /\ exists rel v,
    nth_error (get_gauge_relative_diff df min_R) 0 = Some rel
    /\ nth_error (validity_from_relative_diff df max_d min_R) 0 = Some v
    /\ (col G3 v = false <->
        (exists h, fgtb (col h r) min_R = true)
        /\ (fgtb (fmul (pcol P13 rel) (spec_sign G3 P13)) max_d = true
            \/ fgtb (fmul (pcol P23 rel) (spec_sign G3 P23)) max_d = true)).
Proof.
  intros df r min_R max_d.
  split; [reflexivity|]. split; [reflexivity|].
  apply (@relative_diff_detector_rule df max_d min_R 0 r G3 P13 P23);
    reflexivity.
Defined.

(** A floor between 0 and 1 lies below the readings 1 and 10. *)
Lemma floor_between (m : float) :
  fleb zero m = true -> fleb m (of_Z 1) = true ->
  fltb (of_Z 10) m = false /\ fltb (of_Z 1) m = false
  /\ fgtb (of_Z 10) m = true.
Proof.
  change (of_Z 1) with (S754_finite false 4503599627370496 (-52)).
  change (of_Z 10) with (S754_finite false 5629499534213120 (-49)).
  unfold fleb, fltb, fgtb, SFleb, SFltb, zero.
  destruct m as [[]|[]| |[] mm e].
  7: {
    unfold SFcompare. intros _ H.
    destruct (Z.compare_spec e (-52)) as [He|He|He]; [| |discriminate].
    - subst e.
      pose proof (Pos.compare_cont_antisym mm 4503599627370496%positive Eq)
        as A.
      change (CompOpp Eq) with Eq in A. rewrite <- A.
      destruct (Pos.compare_cont Eq mm 4503599627370496%positive);
        cbv [CompOpp]; [| |discriminate]; auto.
    - assert (H1 : (-49 ?= e)%Z = Gt) by (apply Z.compare_gt_iff; lia).
      assert (H2 : (e ?= -49)%Z = Lt) by (apply Z.compare_lt_iff; lia).
      assert (H3 : (-52 ?= e)%Z = Gt) by (apply Z.compare_gt_iff; lia).
      rewrite H1, H2, H3. auto. }
  all: vm_compute; intros; try discriminate; auto.
Qed.

(** C6: where the three gauges read 10, 10 and 1, with the threshold 0.3
    and a floor between 0 and 1, [validity_from_relative_diff] marks gauge
    "3" invalid and the gauges "1" and "2" valid. *)
Theorem low_outlier_is_invalid (df : Frame float) (min_R : float) (t : nat) :
  nth_error df t = Some (mkRow (of_Z 10) (of_Z 10) (of_Z 1)) ->
  fleb zero min_R = true ->
  fleb min_R (of_Z 1) = true ->
  nth_error (validity_from_relative_diff df (lit 3 10) min_R) t
  = Some (mkRow true true false).
Proof.
  intros Hr H0 H1.
  destruct (floor_between _ H0 H1) as (F10 & F1 & G10).
  rewrite validity_from_relative_diff_nth, get_gauge_relative_diff_nth,
    get_gauge_diff_nth, Hr. simpl. f_equal.
  unfold build_row, diff_not_valid, any_greater, relative_diff_entry.
  simpl. rewrite !F10, !F1, !G10.
  vm_compute. reflexivity.
Qed.

Lemma low_outlier_is_invalid_witness :
  nth_error [mkRow (of_Z 10) (of_Z 10) (of_Z 1)] 0
  = Some (mkRow (of_Z 10) (of_Z 10) (of_Z 1))
  /\ fleb zero (lit 5 10) = true
  /\ fleb (lit 5 10) (of_Z 1) = true
  /\ nth_error (validity_from_relative_diff
                  [mkRow (of_Z 10) (of_Z 10) (of_Z 1)] (lit 3 10) (lit 5 10))
               0
     = Some (mkRow true true false).
Proof.
  split; [reflexivity|]. split; [reflexivity|]. split; [reflexivity|].
  apply (@low_outlier_is_invalid
           [mkRow (of_Z 10) (of_Z 10) (of_Z 1)] (lit 5 10) 0); reflexivity.
Defined.


Lemma validity_from_corr_nth (corr : PFrame float) (min_corr : float)
  (t : nat) :
  nth_error (validity_from_corr corr min_corr) t =
  option_map
    (fun c => build_row (fun g =>
       fgeb (pcol (fst (pairs g)) c) min_corr
       || fgeb (pcol (snd (pairs g)) c) min_corr))
    (nth_error corr t).
Proof. unfold validity_from_corr. apply nth_error_map. Qed.

(** C8: a NaN never triggers invalidity.  (a) A gauge whose value is NaN
    is not flagged by [validity_from_zeros].  (b) A relative difference
    that is NaN fails its threshold comparison in
    [validity_from_relative_diff], so the verdict on the gauge rests on its
    other pair alone, and the gauge is valid when both are NaN.  (c) A
    pair correlation that is NaN does not meet [min_corr] in
    [validity_from_corr], so the verdict rests on the other pair alone, and
    the gauge is not valid when both are NaN. *)
Theorem nan_never_triggers :
  (forall (df : Frame float) (min_R : float) (t : nat) (r : Row float)
          (g : GaugeId),
      nth_error df t = Some r ->
      is_nan (col g r) = true ->
      exists v, nth_error (validity_from_zeros df min_R) t = Some v
                /\ col g v = true)
  /\ (forall (df : Frame float) (max_allowed_relative_diff min_R : float)
             (t : nat) (r : Row float) (rel : PRow float) (g : GaugeId)
             (p1 p2 : PairKey),
      nth_error df t = Some r ->
      nth_error (get_gauge_relative_diff df min_R) t = Some rel ->
      pairs g = (p1, p2) ->
      exists v,
        nth_error
          (validity_from_relative_diff df max_allowed_relative_diff min_R) t
        = Some v
        /\ (is_nan (pcol p1 rel) = true ->
            fgtb (fmul (pcol p1 rel) (spec_sign g p1))
                 max_allowed_relative_diff = false
            /\ col g v
               = negb (any_greater min_R r
                       && fgtb (fmul (pcol p2 rel) (spec_sign g p2))
                               max_allowed_relative_diff))
        /\ (is_nan (pcol p2 rel) = true ->
            fgtb (fmul (pcol p2 rel) (spec_sign g p2))
                 max_allowed_relative_diff = false
            /\ col g v
               = negb (any_greater min_R r
                       && fgtb (fmul (pcol p1 rel) (spec_sign g p1))
                               max_allowed_relative_diff))
        /\ (is_nan (pcol p1 rel) = true -> is_nan (pcol p2 rel) = true ->
            col g v = true))
  /\ (forall (corr : PFrame float) (min_corr : float) (t : nat)
             (c : PRow float) (g : GaugeId) (p1 p2 : PairKey),
      nth_error corr t = Some c ->
      pairs g = (p1, p2) ->
      exists v,
        nth_error (validity_from_corr corr min_corr) t = Some v
        /\ (is_nan (pcol p1 c) = true ->
            fgeb (pcol p1 c) min_corr = false
            /\ col g v = fgeb (pcol p2 c) min_corr)
        /\ (is_nan (pcol p2 c) = true ->
            fgeb (pcol p2 c) min_corr = false
            /\ col g v = fgeb (pcol p1 c) min_corr)
        /\ (is_nan (pcol p1 c) = true -> is_nan (pcol p2 c) = true ->
            col g v = false)).
Proof.
  split; [|split].
  - intros df min_R t r g Hr Hn.
    rewrite validity_from_zeros_nth, Hr. simpl.
    eexists; split; [reflexivity|].
    rewrite col_build_row. unfold zeros_not_valid, map_row.
    rewrite col_build_row, (is_nan_eq _ Hn), round10_nan, feqb_nan_l.
    reflexivity.
  - intros df mx min_R t r rel g p1 p2 Hr Hrel Hp.
    rewrite validity_from_relative_diff_nth, Hr, Hrel.
    eexists; split; [reflexivity|].
    rewrite col_build_row. unfold diff_not_valid.
    rewrite Hp, !pair_sign_spec.
    repeat split.
    + rewrite (is_nan_eq _ H), fmul_nan_l. apply fgtb_nan_l.
    + rewrite (is_nan_eq _ H), fmul_nan_l, fgtb_nan_l. reflexivity.
    + rewrite (is_nan_eq _ H), fmul_nan_l. apply fgtb_nan_l.
    + rewrite (is_nan_eq _ H), fmul_nan_l, fgtb_nan_l, orb_false_r.
      reflexivity.
    + intros H1 H2.
      rewrite (is_nan_eq _ H1), (is_nan_eq _ H2), !fmul_nan_l, !fgtb_nan_l.
      rewrite andb_false_r. reflexivity.
  - intros corr min_corr t c g p1 p2 Hc Hp.
    rewrite validity_from_corr_nth, Hc. simpl.
    eexists; split; [reflexivity|].
    rewrite col_build_row, Hp. simpl.
    repeat split.
    + rewrite (is_nan_eq _ H). apply fgeb_nan_l.
    + rewrite (is_nan_eq _ H), fgeb_nan_l. reflexivity.
    + rewrite (is_nan_eq _ H). apply fgeb_nan_l.
    + rewrite (is_nan_eq _ H), fgeb_nan_l, orb_false_r. reflexivity.
    + intros H1 H2.
      rewrite (is_nan_eq _ H1), (is_nan_eq _ H2), !fgeb_nan_l. reflexivity.
Qed.

Lemma nan_never_triggers_witness :
  let df := [mkRow nan (of_Z 3) (of_Z 3)] in
  let r := mkRow nan (of_Z 3) (of_Z 3) in
  let rel := mkPRow nan nan zero in
  let corr := [mkPRow nan nan (lit 95 100)] in
  let c := mkPRow nan nan (lit 95 100) in
  let min_R := lit 5 10 in
  let mx := lit 3 10 in
  let min_corr := lit 9 10 in
  (nth_error df 0 = Some r /\ is_nan (col G1 r) = true
   /\ exists v, nth_error (validity_from_zeros df min_R) 0 = Some v
                /\ col G1 v = true)
  /\ (nth_error df 0 = Some r
      /\ nth_error (get_gauge_relative_diff df min_R) 0 = Some rel
      /\ pairs G1 = (P12, P13)
      /\ exists v,
        nth_error (validity_from_relative_diff df mx min_R) 0 = Some v
        /\ (is_nan (pcol P12 rel) = true ->
            fgtb (fmul (pcol P12 rel) (spec_sign G1 P12)) mx = false
            /\ col G1 v
               = negb (any_greater min_R r
                       && fgtb (fmul (pcol P13 rel) (spec_sign G1 P13)) mx))
        /\ (is_nan (pcol P13 rel) = true ->
            fgtb (fmul (pcol P13 rel) (spec_sign G1 P13)) mx = false
            /\ col G1 v
               = negb (any_greater min_R r
                       && fgtb (fmul (pcol P12 rel) (spec_sign G1 P12)) mx))
        /\ (is_nan (pcol P12 rel) = true -> is_nan (pcol P13 rel) = true ->
            col G1 v = true))
  /\ (nth_error corr 0 = Some c
      /\ pairs G1 = (P12, P13)
      /\ exists v,
        nth_error (validity_from_corr corr min_corr) 0 = Some v
        /\ (is_nan (pcol P12 c) = true ->
            fgeb (pcol P12 c) min_corr = false
            /\ col G1 v = fgeb (pcol P13 c) min_corr)
        /\ (is_nan (pcol P13 c) = true ->
            fgeb (pcol P13 c) min_corr = false
            /\ col G1 v = fgeb (pcol P12 c) min_corr)
        /\ (is_nan (pcol P12 c) = true -> is_nan (pcol P13 c) = true ->
            col G1 v = false)).
Proof.
  intros df r rel corr c min_R mx min_corr.
  split; [|split].
  - split; [reflexivity|]. split; [reflexivity|].
    apply (proj1 nan_never_triggers df min_R 0 r G1); reflexivity.
  - split; [reflexivity|]. split; [reflexivity|]. split; [reflexivity|].
    apply (proj1 (proj2 nan_never_triggers) df mx min_R 0 r rel G1 P12 P13);
      reflexivity.
  - split; [reflexivity|]. split; [reflexivity|].
    apply (proj2 (proj2 nan_never_triggers) corr min_corr 0 c G1 P12 P13);
      reflexivity.
Defined.

(** [pairs["all"]] lists every pair column once. *)
Lemma pairs_all_complete (p : PairKey) : In p pairs_all.
Proof. destruct p; simpl; auto. Qed.

(** The table [pairs] lists, for each gauge, the two pairs it belongs
    to. *)
Lemma pairs_table_sound (g : GaugeId) (p : PairKey) :
  (p = fst (pairs g) \/ p = snd (pairs g)) <->
  (fst (split_pair p) = g \/ snd (split_pair p) = g).
Proof.
  destruct g, p; simpl; split; intros [H|H]; try discriminate; auto.
Qed.

(** ** The correlation detector *)

Section CorrelationDetector.

Variable rolling_corr : nat -> list float -> list float -> nat -> float.

Lemma gauge_corr_some (df : Frame float) (w t : nat) :
  t < List.length df ->
  gauge_corr rolling_corr df w =
  Some (map (fun i =>
               build_prow (fun p =>
                 clamp_corr (rolling_corr w (column (fst (split_pair p)) df)
                                          (column (snd (split_pair p)) df)
                                          i)))
            (seq 0 (List.length df))).
Proof.
  intros Ht. unfold gauge_corr.
  destruct df as [|r df']; [simpl in Ht; lia|].
  reflexivity.
Qed.

(** C7: [gauge_corr] takes the rolling correlation of the two columns of
    each pair and replaces every value strictly above 1 by 0;
    [validity_from_corr] then marks gauge [g] valid exactly when one of the
    (clamped) correlations of its two pairs is at least [min_corr]. *)
Theorem correlation_detector_rule (df : Frame float) (w : nat)
  (min_corr : float) (t : nat) :
  t < List.length df ->
  exists corr c v,
    gauge_corr rolling_corr df w = Some corr
    /\ nth_error corr t = Some c
    /\ nth_error (validity_from_corr corr min_corr) t = Some v
    /\ (forall p a b,
          split_pair p = (a, b) ->
          pcol p c
          = let raw := rolling_corr w (column a df) (column b df) t in
            if fgtb raw (of_Z 1) then of_Z 0 else raw)
    /\ (forall g p1 p2,
          pairs g = (p1, p2) ->
          (col g v = true <->
           fgeb (pcol p1 c) min_corr = true
           \/ fgeb (pcol p2 c) min_corr = true)).
Proof.
  intros Ht.
  rewrite (gauge_corr_some df w Ht).
  eexists. do 2 eexists. split; [reflexivity|].
  rewrite validity_from_corr_nth, nth_error_map, (nth_error_seq0 Ht). simpl.
  split; [reflexivity|]. split; [reflexivity|]. split.
  - intros p a b Hp. rewrite pcol_build_prow, Hp. reflexivity.
  - intros g p1 p2 Hp.
    rewrite col_build_row, Hp, orb_true_iff. simpl. reflexivity.
Qed.

End CorrelationDetector.

Lemma correlation_detector_rule_witness :
  let rc := fun (_ : nat) (_ _ : list float) (_ : nat) =>
              lit 10000000002 10000000000 in
  let df := [mkRow (of_Z 1) (of_Z 2) (of_Z 3)] in
  let min_corr := lit 9 10 in
  0 < List.length df
  /\ exists corr c v,
    gauge_corr rc df 5 = Some corr
    /\ nth_error corr 0 = Some c
    /\ nth_error (validity_from_corr corr min_corr) 0 = Some v
    /\ (forall p a b,
          split_pair p = (a, b) ->
          pcol p c
          = let raw := rc 5 (column a df) (column b df) 0 in
            if fgtb raw (of_Z 1) then of_Z 0 else raw)
    /\ (forall g p1 p2,
          pairs g = (p1, p2) ->
          (col g v = true <->
           fgeb (pcol p1 c) min_corr = true
           \/ fgeb (pcol p2 c) min_corr = true)).
Proof.
  intros rc df min_corr.
  split; [simpl; lia|].
  apply (@correlation_detector_rule rc df 5 min_corr 0). simpl; lia.
Defined.

(** A correlation of [1.0000000002] is clamped to zero, and then fails the
    threshold 0.9; a frame without rows has no correlations. *)
Example correlation_clamp :
  gauge_corr (fun _ _ _ _ => lit 10000000002 10000000000)
             [mkRow (of_Z 1) (of_Z 2) (of_Z 3)] 5
  = Some [mkPRow zero zero zero]
  /\ validity_from_corr [mkPRow zero zero zero] (lit 9 10)
     = [mkRow false false false]
  /\ gauge_corr (fun _ _ _ _ => nan) [] 5 = None.
Proof. repeat split; vm_compute; reflexivity. Qed.

(** ** Fusion *)

Section Fusion.

Variable window_mean : nat -> list float -> nat -> float.

Lemma rolling_mean_length (w : nat) (df : Frame float) :
  List.length (rolling_mean window_mean w df) = List.length df.
Proof. unfold rolling_mean. rewrite length_map, length_seq. reflexivity. Qed.

Lemma rolling_mean_nth (w : nat) (df : Frame float) (t : nat) :
  t < List.length df ->
  nth_error (rolling_mean window_mean w df) t =
  Some (build_row (fun g => rolling_mean_at window_mean w (column g df) t)).
Proof.
  intros Ht. unfold rolling_mean.
  rewrite nth_error_map, (nth_error_seq0 Ht). reflexivity.
Qed.

Lemma frame_and_nth (a b : Frame bool) (t : nat) :
  nth_error (frame_and a b) t =
  match nth_error a t, nth_error b t with
  | Some x, Some y => Some (build_row (fun g => col g x && col g y))
  | _, _ => None
  end.
Proof.
  unfold frame_and. rewrite nth_error_map, nth_error_combine.
  destruct (nth_error a t), (nth_error b t); reflexivity.
Qed.

Lemma frame_where_nth (df : Frame float) (mask : Frame bool) (t : nat) :
  nth_error (frame_where df mask) t =
  match nth_error df t, nth_error mask t with
  | Some r, Some m =>
      Some (build_row (fun g => if col g m then col g r else nan))
  | _, _ => None
  end.
Proof.
  unfold frame_where. rewrite nth_error_map, nth_error_combine.
  destruct (nth_error df t), (nth_error mask t); reflexivity.
Qed.

Lemma valid_from_zeros_nth (df : Frame float) (min_R : float)
  (hz : positive) (t : nat) :
  t < List.length df ->
  exists z, nth_error (valid_from_zeros window_mean df min_R hz) t = Some z.
Proof.
  intros Ht. unfold valid_from_zeros.
  rewrite validity_from_zeros_nth, (rolling_mean_nth _ df Ht).
  eexists. reflexivity.
Qed.

Lemma valid_from_diff_nth (df : Frame float) (hd : positive)
  (mx min_R : float) (t : nat) :
  t < List.length df ->
  exists d, nth_error (valid_from_diff window_mean df hd mx min_R) t = Some d.
Proof.
  intros Ht. unfold valid_from_diff.
  rewrite validity_from_relative_diff_nth, get_gauge_relative_diff_nth,
    get_gauge_diff_nth, (rolling_mean_nth _ df Ht).
  eexists. reflexivity.
Qed.

(** C2: at every timestamp and for every gauge, the validity that
    [combine_gauges] masks the raw frame with is the conjunction of the
    zero-detector mask (on the short-window rolled frame) and of the
    relative-difference mask (on the long-window rolled frame); it is
    false as soon as one of the two is. *)
Theorem fusion_is_conjunctive (df : Frame float)
  (hours_to_average_for_diff : positive)
  (max_allowed_relative_diff min_R : float)
  (hours_to_average_for_zeros : positive) (t : nat) :
  t < List.length df ->
  exists z d v,
    nth_error
      (validity_from_zeros
         (rolling_mean window_mean
            (60 * Pos.to_nat hours_to_average_for_zeros) df)
         (fdiv min_R (of_Z (Zpos hours_to_average_for_zeros)))) t = Some z
    /\ nth_error
         (validity_from_relative_diff
            (rolling_mean window_mean
               (60 * Pos.to_nat hours_to_average_for_diff) df)
            max_allowed_relative_diff
            (fdiv min_R (of_Z (Zpos hours_to_average_for_diff)))) t = Some d
    /\ nth_error
         (valid_combo window_mean df hours_to_average_for_diff
            max_allowed_relative_diff min_R hours_to_average_for_zeros) t
       = Some v
    /\ (forall g, col g v = col g z && col g d)
    /\ (forall g, col g z = false \/ col g d = false -> col g v = false)
    /\ combine_gauges window_mean df hours_to_average_for_diff
         max_allowed_relative_diff min_R hours_to_average_for_zeros
       = mean_axis1
           (frame_where df
              (valid_combo window_mean df hours_to_average_for_diff
                 max_allowed_relative_diff min_R
                 hours_to_average_for_zeros)).
Proof.
  intros Ht.
  destruct (valid_from_zeros_nth df min_R hours_to_average_for_zeros Ht)
    as [z Hz].
  destruct (valid_from_diff_nth df hours_to_average_for_diff
              max_allowed_relative_diff min_R Ht) as [d Hd].
  exists z, d, (build_row (fun g => col g z && col g d)).
  split; [exact Hz|]. split; [exact Hd|]. split.
  - unfold valid_combo. rewrite frame_and_nth, Hz, Hd. reflexivity.
  - split; [intros g; apply col_build_row|]. split; [|reflexivity].
    intros g [H|H]; rewrite col_build_row, H;
      [reflexivity | apply andb_false_r].
Qed.

End Fusion.

Lemma fusion_is_conjunctive_witness :
  let df := [mkRow (of_Z 2) nan (of_Z 5)] in
  let mx := lit 3 10 in
  let min_R := lit 5 10 in
  0 < List.length df
  /\ exists z d v,
    nth_error
      (validity_from_zeros
         (rolling_mean naive_window_mean (60 * Pos.to_nat 1) df)
         (fdiv min_R (of_Z (Zpos 1)))) 0 = Some z
    /\ nth_error
         (validity_from_relative_diff
            (rolling_mean naive_window_mean (60 * Pos.to_nat 24) df)
            mx (fdiv min_R (of_Z (Zpos 24)))) 0 = Some d
    /\ nth_error (valid_combo naive_window_mean df 24 mx min_R 1) 0 = Some v
    /\ (forall g, col g v = col g z && col g d)
    /\ (forall g, col g z = false \/ col g d = false -> col g v = false)
    /\ combine_gauges naive_window_mean df 24 mx min_R 1
       = mean_axis1
           (frame_where df (valid_combo naive_window_mean df 24 mx min_R 1)).
Proof.
  intros df mx min_R.
  split; [simpl; lia|].
  apply (@fusion_is_conjunctive naive_window_mean df 24 mx min_R 1 0).
  simpl; lia.
Defined.

(** ** Means that skip NaN *)

Lemma same_value_refl (x : float) : same_value x x.
Proof. left; reflexivity. Qed.

Lemma same_value_trans (x y z : float) :
  same_value x y -> same_value y z -> same_value x z.
Proof.
  intros [->|[Hx Hy]] [->|[Hy' Hz]]; unfold same_value; auto.
Qed.

Lemma is_zero_inv (x : float) : is_zero x = true -> exists s, x = S754_zero s.
Proof.
  destruct x as [s|s| |s m e]; simpl; intros H; try discriminate.
  exists s; reflexivity.
Qed.

Lemma fadd_zero_r (x : float) : same_value (fadd x zero) x.
Proof.
  destruct x as [[]|[]| |[] m e]; unfold same_value; auto.
Qed.

Lemma fadd_zero_l (x : float) : same_value (fadd zero x) x.
Proof.
  destruct x as [[]|[]| |[] m e]; unfold same_value; auto.
Qed.

Lemma fadd_same_value_l (x x' y : float) :
  same_value x x' -> same_value (fadd x y) (fadd x' y).
Proof.
  intros [->|[Hx Hx']]; [left; reflexivity|].
  destruct (is_zero_inv _ Hx) as [s ->].
  destruct (is_zero_inv _ Hx') as [s' ->].
  destruct s, s', y as [[]|[]| |[] m e]; unfold same_value; auto.
Qed.

Lemma fdiv_same_value_l (x x' y : float) :
  same_value x x' -> same_value (fdiv x y) (fdiv x' y).
Proof.
  intros [->|[Hx Hx']]; [left; reflexivity|].
  destruct (is_zero_inv _ Hx) as [s ->].
  destruct (is_zero_inv _ Hx') as [s' ->].
  destruct s, s', y as [[]|[]| |[] m e]; unfold same_value; auto.
Qed.

(** [row_mean] is the arithmetic mean of the values of the row that are
    not NaN, up to the sign of a zero. *)
Lemma row_mean_observed (r : Row float) :
  same_value (row_mean r) (mean_list (observed r)).
Proof.
  destruct r as [a b c].
  unfold row_mean, observed, count_obs, fill0, mean_list.
  cbn [at1 at2 at3 filter].
  destruct (is_nan a) eqn:Ha, (is_nan b) eqn:Hb, (is_nan c) eqn:Hc;
    cbn [negb List.length fold_left Nat.eqb].
  - left; reflexivity.
  - apply fdiv_same_value_l.
    apply same_value_trans with (fadd zero c).
    + apply fadd_same_value_l, fadd_zero_r.
    + apply fadd_zero_l.
  - apply fdiv_same_value_l.
    apply same_value_trans with (fadd zero b).
    + apply fadd_zero_r.
    + apply fadd_zero_l.
  - apply fdiv_same_value_l, fadd_same_value_l, fadd_zero_l.
  - apply fdiv_same_value_l.
    apply same_value_trans with (fadd a zero).
    + apply fadd_zero_r.
    + apply fadd_zero_r.
  - apply fdiv_same_value_l, fadd_same_value_l, fadd_zero_r.
  - apply fdiv_same_value_l, fadd_zero_r.
  - left; reflexivity.
Qed.

Lemma row_mean_all_nan : row_mean (mkRow nan nan nan) = nan.
Proof. reflexivity. Qed.

Lemma row_mean_plain (r : Row float) :
  is_nan (at1 r) = false -> is_nan (at2 r) = false ->
  is_nan (at3 r) = false ->
  row_mean r = fdiv (fadd (fadd (at1 r) (at2 r)) (at3 r)) (of_Z 3).
Proof.
  intros H1 H2 H3. unfold row_mean, count_obs, fill0.
  cbn [filter]. rewrite H1, H2, H3. reflexivity.
Qed.

(** Masking a row and dropping its NaN leaves the values of the gauges
    that are valid and not NaN. *)
Lemma observed_where (r : Row float) (v : Row bool) :
  observed (build_row (fun g => if col g v then col g r else nan))
  = map (fun g => col g r)
        (filter (fun g => col g v && negb (is_nan (col g r))) gauge_ids).
Proof.
  destruct r as [a b c], v as [va vb vc].
  unfold observed, build_row, gauge_ids. cbn [at1 at2 at3 col filter map].
  destruct va, vb, vc; cbn [is_nan nan negb andb];
    destruct (is_nan a), (is_nan b), (is_nan c); reflexivity.
Qed.

(** ** The combined series *)

Section Combination.

Variable window_mean : nat -> list float -> nat -> float.

Lemma half_window (h : nat) : 0 < h -> (60 * h - 1) / 2 = 30 * h - 1.
Proof.
  intros Hh. symmetry. apply Nat.div_unique with (r := 1); lia.
Qed.

Lemma count_obs_le (ws : list float) : count_obs ws <= List.length ws.
Proof. unfold count_obs. apply filter_length_le. Qed.

Lemma window_values_short (h : positive) (xs : list float) (t : nat) :
  at_edge h (List.length xs) t ->
  List.length (window_values (60 * Pos.to_nat h) t xs) < 60 * Pos.to_nat h.
Proof.
  unfold at_edge, window_values.
  pose proof (Pos2Nat.is_pos h) as Hh.
  rewrite (half_window Hh).
  rewrite length_firstn, length_skipn. lia.
Qed.

(** Away from the two ends the window has all its [60 * h] entries, so
    [at_edge] is exactly the incompleteness of the window. *)
Lemma window_values_full (h : positive) (xs : list float) (t : nat) :
  ~ at_edge h (List.length xs) t ->
  List.length (window_values (60 * Pos.to_nat h) t xs) = 60 * Pos.to_nat h.
Proof.
  unfold at_edge, window_values.
  pose proof (Pos2Nat.is_pos h) as Hh.
  rewrite (half_window Hh).
  rewrite length_firstn, length_skipn. lia.
Qed.

Lemma rolling_mean_at_edge (h : positive) (xs : list float) (t : nat) :
  at_edge h (List.length xs) t ->
  rolling_mean_at window_mean (60 * Pos.to_nat h) xs t = nan.
Proof.
  intros He. unfold rolling_mean_at.
  pose proof (window_values_short xs He) as Hs.
  pose proof (count_obs_le (window_values (60 * Pos.to_nat h) t xs)) as Hc.
  destruct (Nat.ltb_spec
              (count_obs (window_values (60 * Pos.to_nat h) t xs))
              (60 * Pos.to_nat h)); [reflexivity | lia].
Qed.

Lemma rolling_mean_row_at_edge (h : positive) (df : Frame float) (t : nat) :
  t < List.length df ->
  at_edge h (List.length df) t ->
  nth_error (rolling_mean window_mean (60 * Pos.to_nat h) df) t
  = Some (mkRow nan nan nan).
Proof.
  intros Ht He. rewrite (rolling_mean_nth _ _ df Ht).
  unfold build_row, column.
  rewrite !rolling_mean_at_edge by (rewrite length_map; exact He).
  reflexivity.
Qed.

Lemma zeros_row_all_nan (min_R : float) (g : GaugeId) :
  zeros_not_valid min_R (map_row round10 (mkRow nan nan nan)) g = false.
Proof. destruct g; reflexivity. Qed.

Lemma diff_row_all_nan (mx min_R : float) (rel : PRow float) (g : GaugeId) :
  diff_not_valid mx min_R (mkRow nan nan nan) rel g = false.
Proof.
  unfold diff_not_valid, any_greater. cbn [at1 at2 at3].
  rewrite fgtb_nan_l. destruct (pairs g). reflexivity.
Qed.

Lemma combine_gauges_nth (df : Frame float) (hd : positive)
  (mx min_R : float) (hz : positive) (t : nat) (r : Row float)
  (v : Row bool) :
  nth_error df t = Some r ->
  nth_error (valid_combo window_mean df hd mx min_R hz) t = Some v ->
  nth_error (combine_gauges window_mean df hd mx min_R hz) t
  = Some (row_mean (build_row (fun g => if col g v then col g r else nan))).
Proof.
  intros Hr Hv. unfold combine_gauges, mean_axis1.
  rewrite nth_error_map, frame_where_nth, Hr, Hv. reflexivity.
Qed.

Lemma valid_combo_nth (df : Frame float) (hd : positive)
  (mx min_R : float) (hz : positive) (t : nat) :
  t < List.length df ->
  exists v, nth_error (valid_combo window_mean df hd mx min_R hz) t = Some v.
Proof.
  intros Ht.
  destruct (valid_from_zeros_nth window_mean df min_R hz Ht) as [z Hz].
  destruct (valid_from_diff_nth window_mean df hd mx min_R Ht) as [d Hd].
  unfold valid_combo. rewrite frame_and_nth, Hz, Hd. eexists; reflexivity.
Qed.

(** C1, as amended: the combined series at timestamp [t] is the arithmetic
    mean of the original, unrolled values of the gauges whose fused
    validity is true at [t] and whose value at [t] is not NaN (up to the
    sign of a zero); it is NaN where no gauge is valid; and the values
    (2.0, 2.2, NaN) under the mask (valid, valid, invalid) combine to
    2.1. *)
Theorem combined_is_mean_of_usable (df : Frame float)
  (hours_to_average_for_diff : positive)
  (max_allowed_relative_diff min_R : float)
  (hours_to_average_for_zeros : positive) (t : nat) (r : Row float) :
  nth_error df t = Some r ->
  exists v x,
    nth_error
      (valid_combo window_mean df hours_to_average_for_diff
         max_allowed_relative_diff min_R hours_to_average_for_zeros) t
    = Some v
    /\ nth_error
         (combine_gauges window_mean df hours_to_average_for_diff
            max_allowed_relative_diff min_R hours_to_average_for_zeros) t
       = Some x
    /\ same_value x (mean_over_usable v r)
    /\ ((forall g, col g v = false) -> x = nan)
    /\ mean_axis1
         (frame_where [mkRow (of_Z 2) (lit 22 10) nan]
                      [mkRow true true false])
       = [lit 21 10].
Proof.
  intros Hr.
  pose proof (nth_error_in_range _ _ Hr) as Ht.
  destruct (valid_combo_nth df hours_to_average_for_diff
              max_allowed_relative_diff min_R hours_to_average_for_zeros Ht)
    as [v Hv].
  exists v. eexists. split; [exact Hv|].
  split; [apply (combine_gauges_nth _ _ _ _ _ _ Hr Hv)|]. split; [|split].
  - unfold mean_over_usable. rewrite <- observed_where.
    apply row_mean_observed.
  - intros Hall. unfold build_row.
    rewrite (Hall G1), (Hall G2), (Hall G3). reflexivity.
  - vm_compute. reflexivity.
Qed.

(** C10, as amended: at a timestamp too close to an end of the series for
    the centered window of a detector to be complete, the rolled means are
    NaN and that detector marks the three gauges valid; where this holds
    for both windows, the combined value is the mean of the original
    readings that are not NaN (up to the sign of a zero): the plain mean
    of the three when none is NaN. *)
Theorem edges_keep_all_gauges (df : Frame float)
  (hours_to_average_for_diff : positive)
  (max_allowed_relative_diff min_R : float)
  (hours_to_average_for_zeros : positive) (t : nat) (r : Row float) :
  nth_error df t = Some r ->
  (at_edge hours_to_average_for_zeros (List.length df) t ->
   nth_error
     (rolling_mean window_mean
        (60 * Pos.to_nat hours_to_average_for_zeros) df) t
   = Some (mkRow nan nan nan)
   /\ nth_error
        (valid_from_zeros window_mean df min_R hours_to_average_for_zeros) t
      = Some (mkRow true true true))
  /\ (at_edge hours_to_average_for_diff (List.length df) t ->
      nth_error
        (rolling_mean window_mean
           (60 * Pos.to_nat hours_to_average_for_diff) df) t
      = Some (mkRow nan nan nan)
      /\ nth_error
           (valid_from_diff window_mean df hours_to_average_for_diff
              max_allowed_relative_diff min_R) t
         = Some (mkRow true true true))
  /\ (at_edge hours_to_average_for_zeros (List.length df) t ->
      at_edge hours_to_average_for_diff (List.length df) t ->
      exists x,
        nth_error
          (combine_gauges window_mean df hours_to_average_for_diff
             max_allowed_relative_diff min_R hours_to_average_for_zeros) t
        = Some x
        /\ same_value x (mean_list (observed r))
        /\ (is_nan (at1 r) = false -> is_nan (at2 r) = false ->
            is_nan (at3 r) = false ->
            x = fdiv (fadd (fadd (at1 r) (at2 r)) (at3 r)) (of_Z 3))).
Proof.
  intros Hr.
  pose proof (nth_error_in_range _ _ Hr) as Ht.
  assert (Hz : at_edge hours_to_average_for_zeros (List.length df) t ->
               nth_error
                 (valid_from_zeros window_mean df min_R
                    hours_to_average_for_zeros) t
               = Some (mkRow true true true)).
  { intros He. unfold valid_from_zeros.
    rewrite validity_from_zeros_nth, (rolling_mean_row_at_edge _ Ht He).
    simpl. unfold build_row. rewrite !zeros_row_all_nan. reflexivity. }
  assert (Hd : at_edge hours_to_average_for_diff (List.length df) t ->
               nth_error
                 (valid_from_diff window_mean df hours_to_average_for_diff
                    max_allowed_relative_diff min_R) t
               = Some (mkRow true true true)).
  { intros He. unfold valid_from_diff.
    rewrite validity_from_relative_diff_nth, get_gauge_relative_diff_nth,
      get_gauge_diff_nth, (rolling_mean_row_at_edge _ Ht He).
    simpl. unfold build_row. rewrite !diff_row_all_nan. reflexivity. }
  split; [|split].
  - intros He. split; [apply (rolling_mean_row_at_edge _ Ht He) | auto].
  - intros He. split; [apply (rolling_mean_row_at_edge _ Ht He) | auto].
  - intros Hez Hed.
    assert (Hv : nth_error
                   (valid_combo window_mean df hours_to_average_for_diff
                      max_allowed_relative_diff min_R
                      hours_to_average_for_zeros) t
                 = Some (mkRow true true true)).
    { unfold valid_combo. rewrite frame_and_nth, (Hz Hez), (Hd Hed).
      reflexivity. }
    eexists. split; [apply (combine_gauges_nth _ _ _ _ _ _ Hr Hv)|].
    unfold build_row. cbn [col at1 at2 at3]. rewrite row_eta. split.
    + apply row_mean_observed.
    + apply row_mean_plain.
Qed.

End Combination.

Lemma combined_is_mean_of_usable_witness :
  let df := [mkRow (of_Z 2) nan (of_Z 5)] in
  let r := mkRow (of_Z 2) nan (of_Z 5) in
  let mx := lit 3 10 in
  let min_R := lit 5 10 in
  nth_error df 0 = Some r
  /\ exists v x,
    nth_error (valid_combo naive_window_mean df 24 mx min_R 1) 0 = Some v
    /\ nth_error (combine_gauges naive_window_mean df 24 mx min_R 1) 0
       = Some x
    /\ same_value x (mean_over_usable v r)
    /\ ((forall g, col g v = false) -> x = nan)
    /\ mean_axis1
         (frame_where [mkRow (of_Z 2) (lit 22 10) nan]
                      [mkRow true true false])
       = [lit 21 10].
Proof.
  intros df r mx min_R.
  split; [reflexivity|].
  apply (@combined_is_mean_of_usable naive_window_mean df 24 mx min_R 1 0 r).
  reflexivity.
Defined.

(** C1, as stated, fails where a gauge that the fused mask marks valid has
    no reading: for the single row (2, NaN, 5) the three gauges are valid,
    the combined value is 3.5, and the mean over the valid gauges is not a
    number. *)
Lemma mean_over_valid_counterexample :
  let df := [mkRow (of_Z 2) nan (of_Z 5)] in
  let r := mkRow (of_Z 2) nan (of_Z 5) in
  let v := mkRow true true true in
  let x := lit 35 10 in
  nth_error df 0 = Some r
  /\ nth_error
       (valid_combo naive_window_mean df 24 (lit 3 10) (lit 5 10) 1) 0
     = Some v
  /\ nth_error
       (combine_gauges naive_window_mean df 24 (lit 3 10) (lit 5 10) 1) 0
     = Some x
  /\ mean_over_valid v r = nan
  /\ x <> mean_over_valid v r
  /\ ~ same_value x (mean_over_valid v r).
Proof.
  intros df r v x.
  split; [reflexivity|]. split; [vm_compute; reflexivity|].
  split; [vm_compute; reflexivity|]. split; [vm_compute; reflexivity|].
  split.
  - vm_compute. discriminate.
  - vm_compute. intros [H|[H _]]; discriminate.
Qed.

Lemma edges_keep_all_gauges_witness :
  let df := [mkRow nan (of_Z 4) (of_Z 6)] in
  let r := mkRow nan (of_Z 4) (of_Z 6) in
  let mx := lit 3 10 in
  let min_R := lit 5 10 in
  nth_error df 0 = Some r
  /\ at_edge 1 (List.length df) 0
  /\ at_edge 24 (List.length df) 0
  /\ (at_edge 1 (List.length df) 0 ->
      nth_error (rolling_mean naive_window_mean (60 * Pos.to_nat 1) df) 0
      = Some (mkRow nan nan nan)
      /\ nth_error (valid_from_zeros naive_window_mean df min_R 1) 0
         = Some (mkRow true true true))
  /\ (at_edge 24 (List.length df) 0 ->
      nth_error (rolling_mean naive_window_mean (60 * Pos.to_nat 24) df) 0
      = Some (mkRow nan nan nan)
      /\ nth_error (valid_from_diff naive_window_mean df 24 mx min_R) 0
         = Some (mkRow true true true))
  /\ (at_edge 1 (List.length df) 0 ->
      at_edge 24 (List.length df) 0 ->
      exists x,
        nth_error (combine_gauges naive_window_mean df 24 mx min_R 1) 0
        = Some x
        /\ same_value x (mean_list (observed r))
        /\ (is_nan (at1 r) = false -> is_nan (at2 r) = false ->
            is_nan (at3 r) = false ->
            x = fdiv (fadd (fadd (at1 r) (at2 r)) (at3 r)) (of_Z 3))).
Proof.
  intros df r mx min_R.
  split; [reflexivity|].
  split; [left; simpl; lia|]. split; [left; simpl; lia|].
  apply (@edges_keep_all_gauges naive_window_mean df 24 mx min_R 1 0 r).
  reflexivity.
Defined.

(** C10, as stated, fails where a reading is missing at the edge: for the
    single row (NaN, 4, 6) both windows are incomplete, the combined value
    is 5, and the plain mean of the three readings is not a number. *)
Lemma edge_plain_mean_counterexample :
  let df := [mkRow nan (of_Z 4) (of_Z 6)] in
  let r := mkRow nan (of_Z 4) (of_Z 6) in
  let x := of_Z 5 in
  nth_error df 0 = Some r
  /\ at_edge 1 (List.length df) 0
  /\ at_edge 24 (List.length df) 0
  /\ nth_error
       (combine_gauges naive_window_mean df 24 (lit 3 10) (lit 5 10) 1) 0
     = Some x
  /\ mean_list [at1 r; at2 r; at3 r] = nan
  /\ x <> mean_list [at1 r; at2 r; at3 r]
  /\ ~ same_value x (mean_list [at1 r; at2 r; at3 r]).
Proof.
  intros df r x.
  split; [reflexivity|].
  split; [left; simpl; lia|]. split; [left; simpl; lia|].
  split; [vm_compute; reflexivity|]. split; [vm_compute; reflexivity|].
  split.
  - vm_compute. discriminate.
  - vm_compute. intros [H|[H _]]; discriminate.
Qed.

(** ** The WMO calibration *)





(** ** The model at work *)

Example rint_ties_to_even :
  map rint [lit 5 10; lit 15 10; lit 25 10; lit (-25) 10; lit 26 10;
            lit (-3) 10; of_Z 7; nan]
  = [zero; of_Z 2; of_Z 2; of_Z (-2); of_Z 3; S754_zero true; of_Z 7; nan].
Proof. vm_compute. reflexivity. Qed.

Example round10_drops_noise :
  round10 (lit 1 100000000000) = zero
  /\ round10 (lit 22 10) = lit 22 10
  /\ round10 (fadd (lit 1 10) (lit 2 10)) = lit 3 10.
Proof. repeat split; vm_compute; reflexivity. Qed.

(** A centered window of even length 4 on the column 0, 1, ..., 9: no
    value at the first two positions and at the last one. *)
Example rolling_window_of_four :
  let xs := map (fun i => of_nat i) (seq 0 10) in
  map (rolling_mean_at naive_window_mean 4 xs) (seq 0 10)
  = [nan; nan; lit 15 10; lit 25 10; lit 35 10; lit 45 10; lit 55 10;
     lit 65 10; lit 75 10; nan].
Proof. vm_compute. reflexivity. Qed.

(** Seventy minutes with gauge "1" stuck at zero while the others read 3
    and 4: inside the series gauge "1" is dropped and the combination is
    3.5; at the first minute the windows are incomplete, the three gauges
    are kept and the combination is 7/3. *)
Example stuck_gauge_is_dropped :
  let df := repeat (mkRow zero (of_Z 3) (of_Z 4)) 70 in
  let mask := valid_combo naive_window_mean df 1 (lit 3 10) (lit 5 10) 1 in
  let combo := combine_gauges naive_window_mean df 1 (lit 3 10) (lit 5 10) 1
  in
  nth_error mask 35 = Some (mkRow false true true)
  /\ nth_error combo 35 = Some (lit 35 10)
  /\ nth_error mask 0 = Some (mkRow true true true)
  /\ nth_error combo 0 = Some (fdiv (of_Z 7) (of_Z 3)).
Proof. repeat split; vm_compute; reflexivity. Qed.

(** * Further properties of the detectors *)

(** ** Signs of binary64 values *)

(** The sign of a value that has one: [None] for NaN. *)
Lemma binary_round_aux_sign (s : bool) (m e : Z) (l : location) :
  match binary_round_aux prec emax s m e l with
  | S754_zero s' | S754_infinity s' | S754_finite s' _ _ => s' = s
  | S754_nan => True
  end.
Proof.
  unfold binary_round_aux.
  destruct (shr_fexp prec emax m e l) as [mrs e'].
  destruct (shr_fexp prec emax
              (round_nearest_even (shr_m mrs) (loc_of_shr_record mrs)) e'
              loc_Exact) as [mrs' e''].
  destruct (shr_m mrs'); auto.
  destruct (Z.leb e'' (emax - prec)); reflexivity.
Qed.

Lemma above_floor_positive (y m : float) :
  nonneg_or_nan m -> fgtb y m = true ->
  match y with
  | S754_finite false _ _ | S754_infinity false => True
  | _ => False
  end.
Proof.
  unfold nonneg_or_nan, fgtb, fleb, SFltb, SFleb, zero.
  intros [Hm|Hm] Hy.
  - destruct m as [[]|[]| |[] mm me]; try discriminate;
      destruct y as [[]|[]| |[] ym ye]; try discriminate; exact I.
  - destruct m; discriminate.
Qed.

Lemma above_floor_nonzero (x m : float) :
  nonneg_or_nan m -> fgtb x m = true -> feqb x zero = false.
Proof.
  intros Hm Hx. pose proof (@above_floor_positive _ _ Hm Hx) as H.
  destruct x as [[]|[]| |[] xm xe]; try contradiction; reflexivity.
Qed.

Lemma zero_or_nan_not_above (x m : float) :
  nonneg_or_nan m ->
  is_zero x = true \/ is_nan x = true ->
  fgtb x m = false.
Proof.
  intros Hm Hx. destruct (fgtb x m) eqn:E; [|reflexivity].
  pose proof (@above_floor_positive _ _ Hm E) as H.
  destruct x as [[]|[]| |[] xm xe]; try contradiction;
    destruct Hx as [Hx|Hx]; discriminate.
Qed.

(** ** The zero detector *)

(** X2: With a floor that is not negative, [validity_from_zeros] keeps every
    gauge whose rounded reading is above the floor, so it never marks the
    three gauges invalid at one timestamp. *)
Theorem zeros_keep_a_gauge (df : Frame float) (min_R : float) (t : nat)
  (r : Row float) :
  nth_error df t = Some r ->
  nonneg_or_nan min_R ->
  exists v,
    nth_error (validity_from_zeros df min_R) t = Some v
    /\ (forall g, fgtb (round10 (col g r)) min_R = true -> col g v = true)
    /\ 1 <= count_valid v.
Proof.
  intros Hr Hm. rewrite validity_from_zeros_nth, Hr. simpl.
  eexists; split; [reflexivity|].
  assert (Hg : forall g, fgtb (round10 (col g r)) min_R = true ->
                         feqb (round10 (col g r)) zero = false)
    by (intros g; apply above_floor_nonzero; exact Hm).
  pose proof (Hg G1) as H1. pose proof (Hg G2) as H2.
  pose proof (Hg G3) as H3. simpl in H1, H2, H3.
  unfold count_valid, gauge_ids, build_row, zeros_not_valid, map_row.
  simpl.
  split.
  - intros g Ha. destruct g; simpl in *;
      [rewrite (H1 Ha) | rewrite (H2 Ha) | rewrite (H3 Ha)]; reflexivity.
  - destruct (fgtb (round10 (at1 r)) min_R);
      destruct (fgtb (round10 (at2 r)) min_R);
      destruct (fgtb (round10 (at3 r)) min_R);
      try rewrite (H1 eq_refl); try rewrite (H2 eq_refl);
      try rewrite (H3 eq_refl);
      repeat match goal with
             | |- context [feqb ?x zero] => destruct (feqb x zero)
             end;
      simpl; lia.
Qed.

(** ** The relative-difference detector *)

Lemma fsub_nan_r (x : float) : fsub x nan = nan.
Proof. destruct x as [[]|[]| |[] m e]; reflexivity. Qed.

Lemma entry_masked_for (m : float) (r : Row float) (d : PRow float)
  (g : GaugeId) (p : PairKey) :
  p = fst (pairs g) \/ p = snd (pairs g) ->
  fltb (col g r) m = true ->
  relative_diff_entry m r d p = nan.
Proof.
  intros Hp Hg. apply pairs_table_sound in Hp.
  unfold relative_diff_entry. destruct (split_pair p) as [a b].
  simpl in Hp. destruct Hp as [Hp|Hp]; subst; rewrite Hg;
    [destruct (fltb (col b r) m)|]; reflexivity.
Qed.

Lemma entry_of_nan_diff (m : float) (r : Row float) (d : PRow float)
  (p : PairKey) :
  pcol p d = nan -> relative_diff_entry m r d p = nan.
Proof.
  intros Hd. unfold relative_diff_entry. destruct (split_pair p) as [a b].
  rewrite Hd.
  destruct (fltb (col a r) m), (fltb (col b r) m); reflexivity.
Qed.

Lemma diff_valid_of_nan_entries (mx m : float) (r : Row float)
  (rel : PRow float) (g : GaugeId) :
  pcol (fst (pairs g)) rel = nan ->
  pcol (snd (pairs g)) rel = nan ->
  diff_not_valid mx m r rel g = false.
Proof.
  intros H1 H2. unfold diff_not_valid.
  destruct (pairs g) as [p1 p2]. simpl in H1, H2.
  rewrite H1, H2, !fmul_nan_l, !fgtb_nan_l. apply andb_false_r.
Qed.

(** X3: A gauge that reads below the floor is never flagged by
    [validity_from_relative_diff]: both its relative differences are
    masked. *)
Theorem below_floor_is_not_flagged (df : Frame float) (mx min_R : float)
  (t : nat) (r : Row float) (g : GaugeId) :
  nth_error df t = Some r ->
  fltb (col g r) min_R = true ->
  exists rel v,
    nth_error (get_gauge_relative_diff df min_R) t = Some rel
    /\ nth_error (validity_from_relative_diff df mx min_R) t = Some v
    /\ pcol (fst (pairs g)) rel = nan
    /\ pcol (snd (pairs g)) rel = nan
    /\ col g v = true.
Proof.
  intros Hr Hg.
  rewrite validity_from_relative_diff_nth, get_gauge_relative_diff_nth,
    get_gauge_diff_nth, Hr. simpl.
  do 2 eexists. split; [reflexivity|]. split; [reflexivity|].
  rewrite !pcol_build_prow, col_build_row.
  assert (H1 : forall d,
             relative_diff_entry min_R r d (fst (pairs g)) = nan)
    by (intros d; apply entry_masked_for with (g := g); auto).
  assert (H2 : forall d,
             relative_diff_entry min_R r d (snd (pairs g)) = nan)
    by (intros d; apply entry_masked_for with (g := g); auto).
  split; [apply H1|]. split; [apply H2|].
  rewrite diff_valid_of_nan_entries;
    [reflexivity | rewrite pcol_build_prow; apply H1
     | rewrite pcol_build_prow; apply H2].
Qed.

Lemma below_floor_is_not_flagged_witness :
  let df := [mkRow zero (of_Z 3) (of_Z 4)] in
  let r := mkRow zero (of_Z 3) (of_Z 4) in
  let mx := lit 3 10 in
  let min_R := lit 5 10 in
  nth_error df 0 = Some r
  /\ fltb (col G1 r) min_R = true
  /\ exists rel v,
    nth_error (get_gauge_relative_diff df min_R) 0 = Some rel
    /\ nth_error (validity_from_relative_diff df mx min_R) 0 = Some v
    /\ pcol (fst (pairs G1)) rel = nan
    /\ pcol (snd (pairs G1)) rel = nan
    /\ col G1 v = true.
Proof.
  intros df r mx min_R.
  split; [reflexivity|]. split; [reflexivity|].
  apply (@below_floor_is_not_flagged df mx min_R 0 r G1); reflexivity.
Defined.

Lemma opposite_signs_not_both_above (rd mx : float) :
  nonneg_or_nan mx ->
  fgtb (fmul rd (of_Z (-1))) mx = true ->
  fgtb (fmul rd (of_Z 1)) mx = false.
Proof.
  intros Hm Ha.
  destruct (fgtb (fmul rd (of_Z 1)) mx) eqn:Hb; [|reflexivity].
  pose proof (@above_floor_positive _ _ Hm Ha) as Pa.
  pose proof (@above_floor_positive _ _ Hm Hb) as Pb.
  revert Pa Pb.
  change (of_Z 1) with (S754_finite false 4503599627370496 (-52)).
  change (of_Z (-1)) with (S754_finite true 4503599627370496 (-52)).
  destruct rd as [[]|[]| |s m e]; try (simpl; intros; contradiction).
  unfold fmul, SFmul.
  generalize (binary_round_aux_sign (xorb s true)
                (Zpos (m * 4503599627370496)) (e + -52) loc_Exact).
  generalize (binary_round_aux_sign (xorb s false)
                (Zpos (m * 4503599627370496)) (e + -52) loc_Exact).
  destruct (binary_round_aux prec emax (xorb s false)
              (Zpos (m * 4503599627370496)) (e + -52) loc_Exact)
    as [s1|s1| |s1 m1 e1];
    destruct (binary_round_aux prec emax (xorb s true)
                (Zpos (m * 4503599627370496)) (e + -52) loc_Exact)
      as [s2|s2| |s2 m2 e2];
    intros E1 E2; subst; destruct s; simpl; intros; contradiction.
Qed.

(** X4: With a threshold that is not negative, the relative difference of a
    pair never exceeds it for both gauges of the pair: the pair counts
    against at most one of the two. *)
Theorem pair_flags_one_side (df : Frame float) (mx min_R : float) (t : nat)
  (r : Row float) (p : PairKey) (a b : GaugeId) :
  nth_error df t = Some r ->
  nonneg_or_nan mx ->
  split_pair p = (a, b) ->
  exists rel,
    nth_error (get_gauge_relative_diff df min_R) t = Some rel
    /\ (fgtb (fmul (pcol p rel) (spec_sign a p)) mx = true ->
        fgtb (fmul (pcol p rel) (spec_sign b p)) mx = false)
    /\ (fgtb (fmul (pcol p rel) (spec_sign b p)) mx = true ->
        fgtb (fmul (pcol p rel) (spec_sign a p)) mx = false).
Proof.
  intros Hr Hm Hp.
  rewrite get_gauge_relative_diff_nth, get_gauge_diff_nth, Hr. simpl.
  eexists. split; [reflexivity|].
  assert (Ha : spec_sign a p = of_Z (-1))
    by (destruct p; inversion Hp; reflexivity).
  assert (Hb : spec_sign b p = of_Z 1)
    by (destruct p; inversion Hp; reflexivity).
  rewrite Ha, Hb. split.
  - apply opposite_signs_not_both_above; exact Hm.
  - intros H.
    destruct (fgtb (fmul
                      (pcol p (build_prow (relative_diff_entry min_R r
                         (build_prow (fun p0 =>
                            fsub (round10 (col (fst (split_pair p0)) r))
                                 (round10 (col (snd (split_pair p0)) r)))))))
                      (of_Z (-1))) mx) eqn:E; [|reflexivity].
    rewrite (opposite_signs_not_both_above _ Hm E) in H. discriminate.
Qed.

(** ** Missing readings *)

Lemma count_obs_missing (ws : list float) :
  In nan ws -> count_obs ws < List.length ws.
Proof.
  unfold count_obs. induction ws as [|w ws IH]; simpl; [contradiction|].
  intros [Hw|Hin].
  - subst w. simpl.
    pose proof (filter_length_le (fun v => negb (is_nan v)) ws). lia.
  - specialize (IH Hin). destruct (negb (is_nan w)); simpl; lia.
Qed.

Lemma nan_in_window (window_mean : nat -> list float -> nat -> float)
  (h : positive) (xs : list float) (i j : nat) :
  nth_error xs j = Some nan ->
  i <= j + 30 * Pos.to_nat h ->
  j < i + 30 * Pos.to_nat h ->
  rolling_mean_at window_mean (60 * Pos.to_nat h) xs i = nan.
Proof.
  intros Hj Hlo Hhi.
  pose proof (nth_error_in_range _ _ Hj) as Hn.
  pose proof (Pos2Nat.is_pos h) as Hh.
  unfold rolling_mean_at.
  set (ws := window_values (60 * Pos.to_nat h) i xs).
  assert (Hin : In nan ws).
  { apply nth_error_In with (n := j - (i + 30 * Pos.to_nat h
                                        - 60 * Pos.to_nat h)).
    unfold ws, window_values. rewrite (half_window Hh).
    rewrite nth_error_firstn, nth_error_skipn.
    replace (i + 1 + (30 * Pos.to_nat h - 1) - 60 * Pos.to_nat h)
      with (i + 30 * Pos.to_nat h - 60 * Pos.to_nat h) by lia.
    replace (i + 1 + (30 * Pos.to_nat h - 1))
      with (i + 30 * Pos.to_nat h) by lia.
    destruct (Nat.ltb_spec
                (j - (i + 30 * Pos.to_nat h - 60 * Pos.to_nat h))
                (Nat.min (i + 30 * Pos.to_nat h) (List.length xs)
                 - (i + 30 * Pos.to_nat h - 60 * Pos.to_nat h)));
      [|lia].
    rewrite <- Hj. f_equal. lia. }
  assert (Hlen : List.length ws <= 60 * Pos.to_nat h).
  { unfold ws, window_values. rewrite (half_window Hh).
    rewrite length_firstn, length_skipn. lia. }
  pose proof (count_obs_missing ws Hin) as Hc.
  destruct (Nat.ltb_spec (count_obs ws) (60 * Pos.to_nat h));
    [reflexivity | lia].
Qed.

(** X5: A reading that is NaN makes the rolled mean NaN at every timestamp
    whose centered window of [60 * h] entries contains it: the [30 * h - 1]
    timestamps before it, its own, and the [30 * h] after it. *)
Theorem missing_reading_blanks_window
  (window_mean : nat -> list float -> nat -> float) (h : positive)
  (xs : list float) (i j : nat) :
  nth_error xs j = Some nan ->
  i <= j + 30 * Pos.to_nat h ->
  j < i + 30 * Pos.to_nat h ->
  rolling_mean_at window_mean (60 * Pos.to_nat h) xs i = nan.
Proof. apply nan_in_window. Qed.

Lemma missing_reading_blanks_window_witness :
  let xs := repeat (of_Z 2) 50 ++ [nan] ++ repeat (of_Z 2) 50 in
  nth_error xs 50 = Some nan
  /\ 45 <= 50 + 30 * Pos.to_nat 1
  /\ 50 < 45 + 30 * Pos.to_nat 1
  /\ rolling_mean_at naive_window_mean (60 * Pos.to_nat 1) xs 45 = nan.
Proof.
  intros xs.
  split; [reflexivity|]. split; [simpl; lia|]. split; [simpl; lia|].
  apply (@missing_reading_blanks_window naive_window_mean 1 xs 45 50);
    [reflexivity | simpl; lia | simpl; lia].
Defined.

Lemma zeros_valid_of_nan (m : float) (r : Row float) (g : GaugeId) :
  col g r = nan -> zeros_not_valid m (map_row round10 r) g = false.
Proof.
  intros Hg. unfold zeros_not_valid, map_row.
  rewrite col_build_row, Hg, round10_nan, feqb_nan_l. reflexivity.
Qed.

Lemma diff_valid_of_nan (mx m : float) (r : Row float) (g : GaugeId) :
  col g r = nan ->
  diff_not_valid mx m r
    (build_prow (relative_diff_entry m r
       (build_prow (fun p =>
          fsub (round10 (col (fst (split_pair p)) r))
               (round10 (col (snd (split_pair p)) r)))))) g = false.
Proof.
  intros Hg.
  assert (H : forall p, p = fst (pairs g) \/ p = snd (pairs g) ->
     pcol p (build_prow (relative_diff_entry m r
       (build_prow (fun p =>
          fsub (round10 (col (fst (split_pair p)) r))
               (round10 (col (snd (split_pair p)) r)))))) = nan).
  { intros p Hp. rewrite pcol_build_prow. apply entry_of_nan_diff.
    rewrite pcol_build_prow. apply pairs_table_sound in Hp.
    destruct Hp as [Hp|Hp]; rewrite Hp, Hg, round10_nan;
      [reflexivity | apply fsub_nan_r]. }
  apply diff_valid_of_nan_entries; apply H; auto.
Qed.

Section MissingReadings.

Variable window_mean : nat -> list float -> nat -> float.

Lemma rolled_nan_of_raw_nan (h : positive) (df : Frame float) (t : nat)
  (r : Row float) (g : GaugeId) :
  nth_error df t = Some r ->
  is_nan (col g r) = true ->
  rolling_mean_at window_mean (60 * Pos.to_nat h) (column g df) t = nan.
Proof.
  intros Hr Hn.
  apply nan_in_window with (j := t); [|lia|].
  - unfold column. rewrite nth_error_map, Hr. simpl.
    rewrite (is_nan_eq _ Hn). reflexivity.
  - pose proof (Pos2Nat.is_pos h). lia.
Qed.

(** X6: A gauge whose reading at [t] is NaN is never flagged at [t]: both
    detectors of [combine_gauges] see a rolled mean that is NaN and keep
    the gauge, so its fused validity is true. *)
Theorem missing_reading_stays_valid (df : Frame float) (hd : positive)
  (mx min_R : float) (hz : positive) (t : nat) (r : Row float)
  (g : GaugeId) :
  nth_error df t = Some r ->
  is_nan (col g r) = true ->
  exists z d v,
    nth_error (valid_from_zeros window_mean df min_R hz) t = Some z
    /\ nth_error (valid_from_diff window_mean df hd mx min_R) t = Some d
    /\ nth_error (valid_combo window_mean df hd mx min_R hz) t = Some v
    /\ col g z = true /\ col g d = true /\ col g v = true.
Proof.
  intros Hr Hn.
  pose proof (nth_error_in_range _ _ Hr) as Ht.
  unfold valid_combo. rewrite frame_and_nth.
  unfold valid_from_zeros, valid_from_diff.
  rewrite validity_from_zeros_nth, validity_from_relative_diff_nth,
    get_gauge_relative_diff_nth, get_gauge_diff_nth,
    !(rolling_mean_nth window_mean _ df Ht).
  simpl. do 3 eexists.
  split; [reflexivity|]. split; [reflexivity|]. split; [reflexivity|].
  rewrite !col_build_row.
  rewrite zeros_valid_of_nan
    by (rewrite col_build_row; apply (@rolled_nan_of_raw_nan hz df t r g Hr Hn)).
  rewrite diff_valid_of_nan
    by (rewrite col_build_row; apply (@rolled_nan_of_raw_nan hd df t r g Hr Hn)).
  repeat split.
Qed.

End MissingReadings.

Lemma missing_reading_stays_valid_witness :
  let df := repeat (mkRow zero (of_Z 3) (of_Z 4)) 40
            ++ [mkRow nan (of_Z 3) (of_Z 4)]
            ++ repeat (mkRow zero (of_Z 3) (of_Z 4)) 40 in
  let r := mkRow nan (of_Z 3) (of_Z 4) in
  let mx := lit 3 10 in
  let min_R := lit 5 10 in
  nth_error df 40 = Some r
  /\ is_nan (col G1 r) = true
  /\ exists z d v,
    nth_error (valid_from_zeros naive_window_mean df min_R 1) 40 = Some z
    /\ nth_error (valid_from_diff naive_window_mean df 1 mx min_R) 40
       = Some d
    /\ nth_error (valid_combo naive_window_mean df 1 mx min_R 1) 40 = Some v
    /\ col G1 z = true /\ col G1 d = true /\ col G1 v = true.
Proof.
  intros df r mx min_R.
  split; [reflexivity|]. split; [reflexivity|].
  apply (@missing_reading_stays_valid naive_window_mean df 1 mx min_R 1 40
           r G1); reflexivity.
Defined.

(** ** Gauges that agree *)

Lemma fsub_self (y : float) :
  is_zero (fsub y y) = true \/ is_nan (fsub y y) = true.
Proof.
  destruct y as [[]|[]| |s m e]; auto.
  left. unfold fsub, SFsub. rewrite Z.sub_diag. reflexivity.
Qed.

Lemma fdiv_zero_or_nan (x y : float) :
  is_zero x = true \/ is_nan x = true ->
  is_zero (fdiv x y) = true \/ is_nan (fdiv x y) = true.
Proof.
  intros [H|H]; destruct x as [sx|sx| |sx m e]; try discriminate;
    destruct y as [sy|sy| |sy m' e']; auto.
Qed.

Lemma fmul_zero_or_nan (x y : float) :
  is_zero x = true \/ is_nan x = true ->
  is_zero (fmul x y) = true \/ is_nan (fmul x y) = true.
Proof.
  intros [H|H]; destruct x as [sx|sx| |sx m e]; try discriminate;
    destruct y as [sy|sy| |sy m' e']; auto.
Qed.

Lemma nonneg_of_sign (x : float) :
  match x with
  | S754_zero s | S754_infinity s | S754_finite s _ _ => s = false
  | S754_nan => True
  end ->
  nonneg_or_nan x.
Proof.
  unfold nonneg_or_nan.
  destruct x as [s|s| |s m e]; intros H; subst; auto.
Qed.

Lemma of_Z_pos_sign (h : positive) :
  match of_Z (Zpos h) with
  | S754_zero s | S754_infinity s | S754_finite s _ _ => s = false
  | S754_nan => True
  end.
Proof.
  unfold of_Z, binary_normalize, binary_round.
  destruct (shl_align h 0 (fexp prec emax (Z.pos (digits2_pos h) + 0)))
    as [mz ez].
  apply binary_round_aux_sign.
Qed.

(** The floor handed to a detector, [min_R / hours], is not negative when
    [min_R] is not. *)
Lemma derived_floor_nonneg (min_R : float) (h : positive) :
  nonneg_or_nan min_R -> nonneg_or_nan (fdiv min_R (of_Z (Zpos h))).
Proof.
  intros [Hm|Hm].
  - pose proof (of_Z_pos_sign h) as Hs.
    destruct (of_Z (Zpos h)) as [s|s| |s m e]; subst;
      destruct min_R as [[]|[]| |[] mm me]; try discriminate;
      try (left; reflexivity); try (right; reflexivity).
    apply nonneg_of_sign. unfold fdiv, SFdiv.
    destruct (SFdiv_core_binary prec emax (Z.pos mm) me (Z.pos m) e)
      as [[mz ez] lz].
    apply (binary_round_aux_sign (xorb false false) mz ez lz).
  - right. rewrite (is_nan_eq _ Hm). reflexivity.
Qed.

Lemma col_of_equal (A : Type) (x : A) (g : GaugeId) : col g (mkRow x x x) = x.
Proof. destruct g; reflexivity. Qed.

Lemma zeros_valid_of_agreement (m x : float) (g : GaugeId) :
  nonneg_or_nan m ->
  zeros_not_valid m (map_row round10 (mkRow x x x)) g = false.
Proof.
  intros Hm. unfold zeros_not_valid, map_row.
  rewrite !col_build_row, !col_of_equal.
  destruct (fgtb (round10 x) m) eqn:E.
  - rewrite (above_floor_nonzero _ Hm E). reflexivity.
  - apply andb_false_r.
Qed.

Lemma diff_valid_of_agreement (mx m x : float) (g : GaugeId) :
  nonneg_or_nan mx ->
  diff_not_valid mx m (mkRow x x x)
    (build_prow (relative_diff_entry m (mkRow x x x)
       (build_prow (fun p =>
          fsub (round10 (col (fst (split_pair p)) (mkRow x x x)))
               (round10 (col (snd (split_pair p)) (mkRow x x x)))))))
    g = false.
Proof.
  intros Hm.
  assert (H : forall p s,
     fgtb (fmul
       (pcol p (build_prow (relative_diff_entry m (mkRow x x x)
          (build_prow (fun p =>
             fsub (round10 (col (fst (split_pair p)) (mkRow x x x)))
                  (round10 (col (snd (split_pair p)) (mkRow x x x))))))))
       s) mx = false).
  { intros p s. apply zero_or_nan_not_above; [exact Hm|].
    apply fmul_zero_or_nan.
    rewrite pcol_build_prow. unfold relative_diff_entry.
    rewrite pcol_build_prow.
    destruct (split_pair p) as [a b]. simpl fst. simpl snd.
    rewrite !col_of_equal.
    destruct (fltb x m); [right; reflexivity|].
    apply fdiv_zero_or_nan, fsub_self. }
  unfold diff_not_valid. destruct (pairs g) as [p1 p2].
  rewrite !H. apply andb_false_r.
Qed.

Section Agreement.

Variable window_mean : nat -> list float -> nat -> float.

(** X7: Where the three gauges carry the same readings throughout, and the
    threshold and the floor are not negative, [combine_gauges] flags no
    gauge at any timestamp and returns the mean of the three readings. *)
Theorem agreeing_gauges_are_kept (df : Frame float) (hd : positive)
  (mx min_R : float) (hz : positive) (t : nat) (r : Row float) :
  (forall r', In r' df -> at1 r' = at2 r' /\ at2 r' = at3 r') ->
  nonneg_or_nan mx ->
  nonneg_or_nan min_R ->
  nth_error df t = Some r ->
  nth_error (valid_combo window_mean df hd mx min_R hz) t
  = Some (mkRow true true true)
  /\ nth_error (combine_gauges window_mean df hd mx min_R hz) t
     = Some (row_mean r).
Proof.
  intros Hsame Hmx Hmin Hr.
  pose proof (nth_error_in_range _ _ Hr) as Ht.
  assert (H2 : column G2 df = column G1 df).
  { unfold column. apply map_ext_in. intros r' Hin.
    destruct (Hsame r' Hin) as [E _]. simpl. congruence. }
  assert (H3 : column G3 df = column G1 df).
  { unfold column. apply map_ext_in. intros r' Hin.
    destruct (Hsame r' Hin) as [E1 E2]. simpl. congruence. }
  assert (Hroll : forall w,
             nth_error (rolling_mean window_mean w df) t
             = Some (mkRow (rolling_mean_at window_mean w (column G1 df) t)
                           (rolling_mean_at window_mean w (column G1 df) t)
                           (rolling_mean_at window_mean w (column G1 df) t))).
  { intros w. rewrite (rolling_mean_nth window_mean w df Ht).
    unfold build_row. rewrite H2, H3. reflexivity. }
  assert (Hv : nth_error (valid_combo window_mean df hd mx min_R hz) t
               = Some (mkRow true true true)).
  { unfold valid_combo. rewrite frame_and_nth.
    unfold valid_from_zeros, valid_from_diff.
    rewrite validity_from_zeros_nth, validity_from_relative_diff_nth,
      get_gauge_relative_diff_nth, get_gauge_diff_nth, !Hroll.
    simpl. unfold build_row.
    rewrite !zeros_valid_of_agreement
      by (apply derived_floor_nonneg; exact Hmin).
    rewrite !diff_valid_of_agreement by exact Hmx.
    reflexivity. }
  split; [exact Hv|].
  rewrite (@combine_gauges_nth window_mean df hd mx min_R hz t r _ Hr Hv).
  unfold build_row. simpl. rewrite row_eta. reflexivity.
Qed.

End Agreement.

Lemma agreeing_gauges_are_kept_witness :
  let df := repeat (mkRow zero zero zero) 35
            ++ repeat (mkRow (of_Z 3) (of_Z 3) (of_Z 3)) 35 in
  let r := mkRow (of_Z 3) (of_Z 3) (of_Z 3) in
  let mx := lit 3 10 in
  let min_R := lit 5 10 in
  (forall r', In r' df -> at1 r' = at2 r' /\ at2 r' = at3 r')
  /\ nonneg_or_nan mx
  /\ nonneg_or_nan min_R
  /\ nth_error df 36 = Some r
  /\ nth_error (valid_combo naive_window_mean df 1 mx min_R 1) 36
     = Some (mkRow true true true)
  /\ nth_error (combine_gauges naive_window_mean df 1 mx min_R 1) 36
     = Some (row_mean r).
Proof.
  intros df r mx min_R.
  assert (Hsame : forall r', In r' df -> at1 r' = at2 r' /\ at2 r' = at3 r').
  { intros r' Hin. unfold df in Hin. apply in_app_or in Hin.
    destruct Hin as [Hin|Hin]; apply repeat_spec in Hin; subst r';
      split; reflexivity. }
  split; [exact Hsame|].
  split; [left; reflexivity|]. split; [left; reflexivity|].
  split; [reflexivity|].
  apply (@agreeing_gauges_are_kept naive_window_mean df 1 mx min_R 1 36 r);
    [exact Hsame | left; reflexivity | left; reflexivity | reflexivity].
Defined.

(** ** The correlation detector *)

(** X8: A pair whose correlation meets the threshold validates both its
    gauges, so [validity_from_corr] never marks exactly one gauge
    valid. *)
Theorem corr_validity_comes_in_pairs (corr : PFrame float)
  (min_corr : float) (t : nat) (c : PRow float) :
  nth_error corr t = Some c ->
  exists v,
    nth_error (validity_from_corr corr min_corr) t = Some v
    /\ (forall p a b,
          split_pair p = (a, b) ->
          fgeb (pcol p c) min_corr = true ->
          col a v = true /\ col b v = true)
    /\ count_valid v <> 1.
Proof.
  intros Hc. rewrite validity_from_corr_nth, Hc. simpl.
  eexists. split; [reflexivity|]. split.
  - intros p a b Hp Hge.
    destruct p; inversion Hp; subst; simpl in *; rewrite Hge;
      rewrite ?orb_true_r; auto.
  - unfold count_valid, gauge_ids, build_row. simpl.
    destruct (fgeb (at12 c) min_corr), (fgeb (at13 c) min_corr),
      (fgeb (at23 c) min_corr); simpl; lia.
Qed.

Lemma corr_validity_comes_in_pairs_witness :
  let corr := [mkPRow (lit 95 100) (lit 2 10) nan] in
  let c := mkPRow (lit 95 100) (lit 2 10) nan in
  let min_corr := lit 9 10 in
  nth_error corr 0 = Some c
  /\ exists v,
    nth_error (validity_from_corr corr min_corr) 0 = Some v
    /\ (forall p a b,
          split_pair p = (a, b) ->
          fgeb (pcol p c) min_corr = true ->
          col a v = true /\ col b v = true)
    /\ count_valid v <> 1.
Proof.
  intros corr c min_corr.
  split; [reflexivity|].
  apply (@corr_validity_comes_in_pairs corr min_corr 0 c). reflexivity.
Defined.

(** * The validity plot *)

(** ** Runs *)

Lemma runs_true (A : Type) (a : A) (tl : list (A * bool)) :
  runs ((a, true) :: tl) = (a, S (lead tl)) :: runs (skipn (lead tl) tl).
Proof.
  revert a. induction tl as [|[b v] tl IH]; intros a; [reflexivity|].
  destruct v; [|reflexivity].
  change (runs ((a, true) :: (b, true) :: tl))
    with (match runs ((b, true) :: tl) with
          | (_, n) :: rs => (a, S n) :: rs
          | [] => [(a, 1)]
          end).
  rewrite (IH b). reflexivity.
Qed.

Lemma runs_false (A : Type) (a : A) (tl : list (A * bool)) :
  runs ((a, false) :: tl) = runs tl.
Proof. reflexivity. Qed.

Lemma runs_relabel (A B : Type) (f : A -> B) (l : list (A * bool)) :
  runs (map (fun ab => (f (fst ab), snd ab)) l)
  = map (fun sn => (f (fst sn), snd sn)) (runs l).
Proof.
  induction l as [|[a v] tl IH]; [reflexivity|].
  destruct v.
  - destruct tl as [|[b w] tl]; [reflexivity|].
    destruct w.
    + change (map (fun ab : A * bool => (f (fst ab), snd ab))
                  ((a, true) :: (b, true) :: tl))
        with ((f a, true)
              :: map (fun ab : A * bool => (f (fst ab), snd ab))
                     ((b, true) :: tl)).
      change (runs ((a, true) :: (b, true) :: tl))
        with (match runs ((b, true) :: tl) with
              | (_, n) :: rs => (a, S n) :: rs
              | [] => [(a, 1)]
              end).
      change (runs ((f a, true)
                    :: map (fun ab : A * bool => (f (fst ab), snd ab))
                           ((b, true) :: tl)))
        with (match runs (map (fun ab : A * bool => (f (fst ab), snd ab))
                               ((b, true) :: tl)) with
              | (_, n) :: rs => (f a, S n) :: rs
              | [] => [(f a, 1)]
              end).
      rewrite IH.
      destruct (runs ((b, true) :: tl)) as [|[s n] rs]; reflexivity.
    + change (runs ((a, true) :: (b, false) :: tl))
        with ((a, 1) :: runs ((b, false) :: tl)).
      simpl map at 1.
      change (runs ((f a, true) :: (f b, false)
                    :: map (fun ab : A * bool => (f (fst ab), snd ab)) tl))
        with ((f a, 1)
              :: runs (map (fun ab : A * bool => (f (fst ab), snd ab))
                           ((b, false) :: tl))).
      rewrite IH. reflexivity.
  - simpl map at 1. rewrite !runs_false. exact IH.
Qed.

Lemma labels_by_position (A : Type) (d : A) (l : list (A * bool))
  (pre : list A) :
  map (fun ab => (nth (fst ab) (pre ++ map fst l) d, snd ab))
      (combine (seq (List.length pre) (List.length l)) (map snd l))
  = l.
Proof.
  revert pre. induction l as [|[a v] tl IH]; intros pre; [reflexivity|].
  simpl. f_equal.
  - f_equal. apply nth_middle.
  - specialize (IH (pre ++ [a])).
    rewrite length_app in IH. simpl in IH.
    rewrite Nat.add_1_r, <- app_assoc in IH. exact IH.
Qed.

(** The runs of a labelled column are the runs of its positions, each
    carrying the label found at its first position. *)
Lemma runs_by_position (A : Type) (d : A) (l : list (A * bool)) :
  runs l
  = map (fun sn => (nth (fst sn) (map fst l) d, snd sn))
        (runs (positions (map snd l))).
Proof.
  rewrite <- (runs_relabel (fun s => nth s (map fst l) d)
                (positions (map snd l))).
  f_equal. unfold positions.
  rewrite length_map. symmetry. apply (labels_by_position d l []).
Qed.

Lemma gapped_weaken (k k' : nat) (rs : list (nat * nat)) :
  k <= k' -> gapped k' rs -> gapped k rs.
Proof.
  destruct rs as [|[s n] tl]; simpl; [auto|].
  intros Hk (Hs & Hn & Ht). repeat split; auto. lia.
Qed.

Lemma runs_of_positions_from (column : list bool) (k : nat) :
  gapped (match column with true :: _ => k | _ => S k end)
         (runs (combine (seq k (List.length column)) column))
  /\ (forall i,
        (exists s n,
            In (s, n) (runs (combine (seq k (List.length column)) column))
            /\ s <= i < s + n)
        <-> k <= i /\ nth_error column (i - k) = Some true).
Proof.
  revert k. induction column as [|b tl IH]; intros k.
  - simpl. split; [exact I|]. intros i. split.
    + intros (s & n & [] & _).
    + intros [_ H]. destruct (i - k); discriminate.
  - destruct (IH (S k)) as [IHg IHc]. clear IH.
    assert (Hnth : forall i, k < i ->
               nth_error (b :: tl) (i - k) = nth_error tl (i - S k)).
    { intros i Hi. replace (i - k) with (S (i - S k)) by lia. reflexivity. }
    destruct b.
    + (* the position is valid: it opens or extends a run *)
      destruct tl as [|b' tl'].
      * simpl. split; [repeat split; lia|].
        intros i. split.
        -- intros (s & n & [E|[]] & Hi). inversion E; subst.
           split; [lia|]. replace (i - s) with 0 by lia. reflexivity.
        -- intros [Hk Hi]. exists k, 1. split; [left; reflexivity|].
           destruct (i - k) as [|j] eqn:E; [lia|].
           destruct j; discriminate.
      * destruct b'.
        -- (* the run goes on *)
           change (combine (seq k (List.length (true :: true :: tl')))
                           (true :: true :: tl'))
             with ((k, true)
                   :: combine (seq (S k) (List.length (true :: tl')))
                              (true :: tl')).
           change (combine (seq (S k) (List.length (true :: tl')))
                           (true :: tl'))
             with ((S k, true)
                   :: combine (seq (S (S k)) (List.length tl')) tl')
             in IHg, IHc |- *.
           rewrite runs_true in IHg, IHc.
           rewrite runs_true.
           change (lead ((S k, true)
                         :: combine (seq (S (S k)) (List.length tl')) tl'))
             with (S (lead (combine (seq (S (S k)) (List.length tl')) tl'))).
           change (skipn
                     (S (lead (combine (seq (S (S k)) (List.length tl'))
                                       tl')))
                     ((S k, true)
                      :: combine (seq (S (S k)) (List.length tl')) tl'))
             with (skipn
                     (lead (combine (seq (S (S k)) (List.length tl')) tl'))
                     (combine (seq (S (S k)) (List.length tl')) tl')).
           set (m := lead (combine (seq (S (S k)) (List.length tl')) tl'))
             in *.
           set (R := runs (skipn m
                             (combine (seq (S (S k)) (List.length tl')) tl')))
             in *.
           split.
           ++ simpl in IHg |- *. destruct IHg as (_ & _ & Hg).
              repeat split; try lia.
              replace (k + S (S m) + 1) with (S k + S m + 1) by lia.
              exact Hg.
           ++ intros i. specialize (IHc i). split.
              ** intros (s & n & [E|Hin] & Hi).
                 --- inversion E; subst.
                     destruct (Nat.eq_dec i s) as [->|Hne].
                     +++ split; [lia|].
                         replace (s - s) with 0 by lia. reflexivity.
                     +++ split; [lia|]. rewrite Hnth by lia.
                         apply IHc. exists (S s), (S m).
                         split; [left; reflexivity | lia].
                 --- assert (Hc : S k <= i
                                  /\ nth_error (true :: tl') (i - S k)
                                     = Some true)
                       by (apply IHc; exists s, n; split;
                           [right; exact Hin | exact Hi]).
                     destruct Hc as [Hk Hc].
                     split; [lia|]. rewrite Hnth by lia. exact Hc.
              ** intros [Hk Hi].
                 destruct (Nat.eq_dec i k) as [->|Hne].
                 --- exists k, (S (S m)).
                     split; [left; reflexivity | lia].
                 --- rewrite Hnth in Hi by lia.
                     assert (Hk' : S k <= i) by lia.
                     destruct (proj2 IHc (conj Hk' Hi))
                       as (s & n & [E|Hin] & Hs).
                     +++ inversion E; subst.
                         exists k, (S (S m)).
                         split; [left; reflexivity | lia].
                     +++ exists s, n. split; [right; exact Hin | exact Hs].
        -- (* the run ends here *)
           change (combine (seq k (List.length (true :: false :: tl')))
                           (true :: false :: tl'))
             with ((k, true)
                   :: combine (seq (S k) (List.length (false :: tl')))
                              (false :: tl')).
           rewrite runs_true.
           change (lead (combine (seq (S k) (List.length (false :: tl')))
                                 (false :: tl'))) with 0.
           change (skipn 0 (combine (seq (S k)
                                         (List.length (false :: tl')))
                                    (false :: tl')))
             with (combine (seq (S k) (List.length (false :: tl')))
                           (false :: tl')).
           split.
           ++ simpl gapped. repeat split; try lia.
              replace (k + 1 + 1) with (S (S k)) by lia. exact IHg.
           ++ intros i. specialize (IHc i). split.
              ** intros (s & n & [E|Hin] & Hi).
                 --- inversion E; subst. split; [lia|].
                     replace (i - s) with 0 by lia. reflexivity.
                 --- assert (Hc : S k <= i
                                  /\ nth_error (false :: tl') (i - S k)
                                     = Some true)
                       by (apply IHc; exists s, n; split; assumption).
                     destruct Hc as [Hk Hc].
                     split; [lia|]. rewrite Hnth by lia. exact Hc.
              ** intros [Hk Hi].
                 destruct (Nat.eq_dec i k) as [->|Hne].
                 --- exists k, 1. split; [left; reflexivity | lia].
                 --- rewrite Hnth in Hi by lia.
                     assert (Hk' : S k <= i) by lia.
                     destruct (proj2 IHc (conj Hk' Hi))
                       as (s & n & Hin & Hs).
                     exists s, n. split; [right; exact Hin | exact Hs].
    + (* the position is not valid *)
      change (combine (seq k (List.length (false :: tl))) (false :: tl))
        with ((k, false) :: combine (seq (S k) (List.length tl)) tl).
      rewrite runs_false. split.
      * apply gapped_weaken with (k' := match tl with
                                        | true :: _ => S k
                                        | _ => S (S k)
                                        end); [|exact IHg].
        destruct tl as [|[] ?]; lia.
      * intros i. specialize (IHc i). split.
        -- intros H. apply IHc in H. destruct H as [Hk Hi].
           split; [lia|]. rewrite Hnth by lia. exact Hi.
        -- intros [Hk Hi].
           destruct (Nat.eq_dec i k) as [->|Hne].
           ++ replace (k - k) with 0 in Hi by lia. discriminate.
           ++ apply IHc. split; [lia|]. rewrite <- Hnth by lia. exact Hi.
Qed.

(** The runs of a column are its valid periods: a position is valid
    exactly when one run covers it, and the runs come in increasing
    order, each of at least one position, with at least one position that
    is not valid between two of them. *)
Theorem runs_are_the_valid_periods (column : list bool) :
  gapped 0 (runs (positions column))
  /\ (forall i,
        nth_error column i = Some true <->
        exists s n, In (s, n) (runs (positions column)) /\ s <= i < s + n).
Proof.
  destruct (runs_of_positions_from column 0) as [Hg Hc].
  split.
  - apply gapped_weaken with (k' := match column with
                                    | true :: _ => 0
                                    | _ => 1
                                    end); [lia | exact Hg].
  - intros i. unfold positions. rewrite (Hc i), Nat.sub_0_r.
    split; [intros H; split; [lia | exact H] | intros [_ H]; exact H].
Qed.

(** ** The loop of plot_gauge_validity *)

Lemma extend_patches_nil (ax : Axes) : extend_patches ax [] = ax.
Proof. destruct ax. unfold extend_patches. simpl. rewrite app_nil_r. reflexivity. Qed.

Lemma extend_patches_app (ax : Axes) (ps qs : list Rectangle) :
  extend_patches (extend_patches ax ps) qs = extend_patches ax (ps ++ qs).
Proof. unfold extend_patches. simpl. rewrite app_assoc. reflexivity. Qed.

Lemma add_patch_for_gauge_extends (ax : Axes) (x w : float) (g : GaugeId) :
  _add_patch_for_gauge ax x w g
  = extend_patches ax
      [mkRectangle x (offset_dict g) w 1 (color_dict g) "none"].
Proof. reflexivity. Qed.

(** The loop along one column, from a state outside a valid period and
    from a state inside one. *)
Lemma validity_loop_draws_runs (inc : float) (g : GaugeId)
  (items : list (float * bool)) :
  (forall ax w t0,
      match validity_loop inc g items (ax, mkLoop false w t0) with
      | None => None
      | Some st => validity_loop_end g st
      end
      = Some (extend_patches ax (map (run_patch inc g) (runs items))))
  /\ (forall ax w t0,
         match validity_loop inc g items (ax, mkLoop true w (Some t0)) with
         | None => None
         | Some st => validity_loop_end g st
         end
         = Some (extend_patches ax
                   (mkRectangle t0 (offset_dict g)
                                (grow inc w (lead items)) 1
                                (color_dict g) "none"
                    :: map (run_patch inc g)
                           (runs (skipn (lead items) items))))).
Proof.
  induction items as [|[t v] tl [IHc IHo]].
  - split; intros ax w t0; simpl.
    + rewrite extend_patches_nil. reflexivity.
    + reflexivity.
  - split; intros ax w t0.
    + destruct v.
      * simpl validity_loop. rewrite IHo, runs_true. reflexivity.
      * simpl validity_loop. rewrite IHc, runs_false. reflexivity.
    + destruct v.
      * simpl validity_loop. rewrite IHo. reflexivity.
      * simpl validity_loop. rewrite IHc.
        rewrite add_patch_for_gauge_extends, extend_patches_app.
        reflexivity.
Qed.

Lemma plot_column_draws_runs (inc : float) (df : IndexedFrame) (ax : Axes)
  (g : GaugeId) :
  plot_column inc df ax g
  = Some (extend_patches ax
            (map (run_patch inc g) (runs (column_items g df)))).
Proof.
  unfold plot_column.
  apply (proj1 (validity_loop_draws_runs inc g (column_items g df))).
Qed.

Lemma plot_columns_draws_runs (inc : float) (df : IndexedFrame)
  (gs : list GaugeId) (ax : Axes) :
  plot_columns inc df gs ax
  = Some (extend_patches ax
            (flat_map (fun g => map (run_patch inc g)
                                    (runs (column_items g df))) gs)).
Proof.
  revert ax. induction gs as [|g gs IH]; intros ax; simpl.
  - rewrite extend_patches_nil. reflexivity.
  - rewrite plot_column_draws_runs, IH, extend_patches_app. reflexivity.
Qed.

(** X9: [plot_gauge_validity] raises exactly for a frame of fewer than two
    timestamps; otherwise it returns, and never meets an unset start of a
    period. *)
Theorem plot_needs_two_timestamps (df : ValidityFrame) (ax : option Axes) :
  plot_gauge_validity df ax = None <-> List.length (vf_rows df) < 2.
Proof.
  unfold plot_gauge_validity.
  destruct df as [rows columns Hdistinct]. cbn [vf_rows vf_columns].
  destruct rows as [|[t0 r0] [|[t1 r1] rest]]; simpl map.
  - simpl. split; [lia | reflexivity].
  - simpl. split; [lia | reflexivity].
  - cbv beta iota zeta. rewrite plot_columns_draws_runs.
    simpl List.length. split; [discriminate | lia].
Qed.

(** For a frame of two timestamps or more, [plot_gauge_validity] keeps the
    patches the axes had and adds, for the columns of the frame in their
    order, one rectangle per valid period of the gauge, in time order: it
    starts at the date of the first timestamp of the period, lies in the
    row of the gauge (2, 1, 0) with height 1, and its width is the first
    step of the index added up once per timestamp of the period.  The y
    axis is set to the three gauge rows. *)
Lemma valid_periods_are_drawn (df : ValidityFrame) (ax : option Axes) :
  2 <= List.length (vf_rows df) ->
  let ax0 := match ax with None => new_axes | Some a => a end in
  let ix := map fst (vf_rows df) in
  let inc := fsub (nth 1 ix zero) (nth 0 ix zero) in
  plot_gauge_validity df ax
  = Some (mkAxes
            (patches ax0
             ++ flat_map
                  (fun g => map (run_patch inc g)
                                (runs (column_items g (vf_rows df))))
                  (vf_columns df))
            (Some [lit 5 10; lit 15 10; lit 25 10])
            (Some (lit (-1) 10, lit 31 10))
            (Some ["Gauge #3"; "Gauge #2"; "Gauge #1"]%string)).
Proof.
  intros Hlen ax0 ix inc.
  unfold plot_gauge_validity. fold ax0.
  destruct df as [rows columns Hdistinct]. cbn [vf_rows vf_columns] in *.
  destruct rows as [|[t0 r0] [|[t1 r1] rest]];
    [simpl in Hlen; lia | simpl in Hlen; lia |].
  simpl map. cbv beta iota zeta. rewrite plot_columns_draws_runs.
  reflexivity.
Qed.

(** The start of each rectangle is the date found in the index at the
    first position of a valid period of the column. *)
Theorem patches_follow_positions (df : IndexedFrame) (g : GaugeId) :
  runs (column_items g df)
  = map (fun sn => (nth (fst sn) (map fst df) zero, snd sn))
        (runs (positions (map (fun tr => col g (snd tr)) df))).
Proof.
  rewrite (runs_by_position zero (column_items g df)).
  unfold column_items. rewrite !map_map. reflexivity.
Qed.

(** A column that is never valid adds no rectangle; a column that is
    always valid adds one, from the first date on. *)
Lemma runs_of_constant_column (A : Type) (l : list (A * bool)) :
  ((forall ab, In ab l -> snd ab = false) -> runs l = [])
  /\ ((forall ab, In ab l -> snd ab = true) ->
      runs l = match l with
               | [] => []
               | (a, _) :: _ => [(a, List.length l)]
               end).
Proof.
  induction l as [|[a v] tl [IHf IHt]]; [split; reflexivity|].
  split; intros H.
  - assert (v = false) by (apply (H (a, v)); left; reflexivity). subst v.
    rewrite runs_false. apply IHf. intros ab Hab. apply H. right; exact Hab.
  - assert (v = true) by (apply (H (a, v)); left; reflexivity). subst v.
    assert (Ht : forall ab, In ab tl -> snd ab = true)
      by (intros ab Hab; apply H; right; exact Hab).
    specialize (IHt Ht).
    destruct tl as [|[b w] tl']; [reflexivity|].
    assert (w = true) by (apply (Ht (b, w)); left; reflexivity). subst w.
    change (runs ((a, true) :: (b, true) :: tl'))
      with (match runs ((b, true) :: tl') with
            | (_, n) :: rs => (a, S n) :: rs
            | [] => [(a, 1)]
            end).
    rewrite IHt. reflexivity.
Qed.

Lemma gauge_ids_distinct : NoDup gauge_ids.
Proof.
  unfold gauge_ids. repeat constructor; simpl; intuition discriminate.
Qed.

Lemma columns_3_1_2_distinct : NoDup [G3; G1; G2].
Proof. repeat constructor; simpl; intuition discriminate. Qed.

(** X10: For a frame of two timestamps or more, the rectangles that
    [plot_gauge_validity] adds for a gauge are its valid periods: there
    are periods (first position, number of positions), in increasing order
    and separated by positions that are not valid, that cover exactly the
    valid positions of the gauge, and the rectangles are drawn from them
    in that order, after the patches the axes had and column by column in
    the order of the columns of the frame: each starts at the date of the
    first position of its period, lies in the row of the gauge (2, 1, 0
    for the gauges "1", "2", "3") with height 1, and has the first step of
    the index, added up once per position of the period, as its width. *)
Theorem drawn_patches_are_the_valid_periods (df : ValidityFrame)
  (ax : option Axes) :
  2 <= List.length (vf_rows df) ->
  let ax0 := match ax with None => new_axes | Some a => a end in
  let ix := map fst (vf_rows df) in
  let inc := fsub (nth 1 ix zero) (nth 0 ix zero) in
  let rect := fun (g : GaugeId) (sn : nat * nat) =>
    mkRectangle (nth (fst sn) ix zero) (offset_dict g)
                (grow inc inc (Nat.pred (snd sn))) 1 (color_dict g) "none" in
  exists (periods : GaugeId -> list (nat * nat)) (ax' : Axes),
    plot_gauge_validity df ax = Some ax'
    /\ patches ax'
       = patches ax0
         ++ flat_map (fun g => map (rect g) (periods g)) (vf_columns df)
    /\ forall g,
         gapped 0 (periods g)
         /\ forall i,
              nth_error (map (fun tr => col g (snd tr)) (vf_rows df)) i
              = Some true
              <-> exists s n, In (s, n) (periods g) /\ s <= i < s + n.
Proof.
  intros Hlen ax0 ix inc rect.
  exists (fun g =>
            runs (positions (map (fun tr => col g (snd tr)) (vf_rows df)))).
  eexists. split; [apply (valid_periods_are_drawn df ax Hlen)|]. split.
  - cbn [patches]. fold ax0 ix inc. f_equal.
    apply flat_map_ext. intros g.
    rewrite patches_follow_positions, map_map. reflexivity.
  - intros g. apply runs_are_the_valid_periods.
Qed.

Lemma drawn_patches_are_the_valid_periods_witness :
  let df := mkValidityFrame
              [(of_Z 10, mkRow true false true);
               (of_Z 11, mkRow true false false);
               (of_Z 12, mkRow false false true)]
              [G3; G1; G2] columns_3_1_2_distinct in
  let ax0 := new_axes in
  let ix := map fst (vf_rows df) in
  let inc := fsub (nth 1 ix zero) (nth 0 ix zero) in
  let rect := fun (g : GaugeId) (sn : nat * nat) =>
    mkRectangle (nth (fst sn) ix zero) (offset_dict g)
                (grow inc inc (Nat.pred (snd sn))) 1 (color_dict g) "none" in
  2 <= List.length (vf_rows df)
  /\ exists (periods : GaugeId -> list (nat * nat)) (ax' : Axes),
    plot_gauge_validity df None = Some ax'
    /\ patches ax'
       = patches ax0
         ++ flat_map (fun g => map (rect g) (periods g)) (vf_columns df)
    /\ forall g,
         gapped 0 (periods g)
         /\ forall i,
              nth_error (map (fun tr => col g (snd tr)) (vf_rows df)) i
              = Some true
              <-> exists s n, In (s, n) (periods g) /\ s <= i < s + n.
Proof.
  intros df ax0 ix inc rect.
  split; [simpl; lia|].
  apply (@drawn_patches_are_the_valid_periods df None). simpl; lia.
Defined.

(** Three minutes at the dates 10, 11, 12: gauge "1" is valid for the
    first two, gauge "2" never, gauge "3" at the first and the last.  The
    rectangles come in the order of the columns of the frame. *)
Example validity_plot_of_three_minutes :
  let rows := [(of_Z 10, mkRow true false true);
               (of_Z 11, mkRow true false false);
               (of_Z 12, mkRow false false true)] in
  option_map patches
    (plot_gauge_validity (mkValidityFrame rows gauge_ids gauge_ids_distinct)
                         None)
  = Some [mkRectangle (of_Z 10) 2 (of_Z 2) 1 (color_dict G1) "none";
          mkRectangle (of_Z 10) 0 (of_Z 1) 1 (color_dict G3) "none";
          mkRectangle (of_Z 12) 0 (of_Z 1) 1 (color_dict G3) "none"]
  /\ option_map patches
       (plot_gauge_validity
          (mkValidityFrame rows [G3; G1; G2] columns_3_1_2_distinct) None)
     = Some [mkRectangle (of_Z 10) 0 (of_Z 1) 1 (color_dict G3) "none";
             mkRectangle (of_Z 12) 0 (of_Z 1) 1 (color_dict G3) "none";
             mkRectangle (of_Z 10) 2 (of_Z 2) 1 (color_dict G1) "none"].
Proof. split; vm_compute; reflexivity. Qed.

Lemma zeros_keep_a_gauge_witness :
  let df := [mkRow zero (of_Z 3) zero] in
  let r := mkRow zero (of_Z 3) zero in
  let min_R := lit 5 10 in
  nth_error df 0 = Some r
  /\ nonneg_or_nan min_R
  /\ exists v,
    nth_error (validity_from_zeros df min_R) 0 = Some v
    /\ (forall g, fgtb (round10 (col g r)) min_R = true -> col g v = true)
    /\ 1 <= count_valid v.
Proof.
  intros df r min_R.
  split; [reflexivity|]. split; [left; reflexivity|].
  apply (@zeros_keep_a_gauge df min_R 0 r); [reflexivity | left; reflexivity].
Defined.

Lemma pair_flags_one_side_witness :
  let df := [mkRow (of_Z 10) (of_Z 10) (of_Z 1)] in
  let r := mkRow (of_Z 10) (of_Z 10) (of_Z 1) in
  let mx := lit 3 10 in
  let min_R := lit 5 10 in
  nth_error df 0 = Some r
  /\ nonneg_or_nan mx
  /\ split_pair P13 = (G1, G3)
  /\ exists rel,
    nth_error (get_gauge_relative_diff df min_R) 0 = Some rel
    /\ (fgtb (fmul (pcol P13 rel) (spec_sign G1 P13)) mx = true ->
        fgtb (fmul (pcol P13 rel) (spec_sign G3 P13)) mx = false)
    /\ (fgtb (fmul (pcol P13 rel) (spec_sign G3 P13)) mx = true ->
        fgtb (fmul (pcol P13 rel) (spec_sign G1 P13)) mx = false).
Proof.
  intros df r mx min_R.
  split; [reflexivity|]. split; [left; reflexivity|].
  split; [reflexivity|].
  apply (@pair_flags_one_side df mx min_R 0 r P13 G1 G3);
    [reflexivity | left; reflexivity | reflexivity].
Defined.
